(** * Metadata extraction from inspection-report documents

    A shallow embedding of [main.py] (the extractor) and [scripts.py] (the
    reconciler), with the properties of their natural-language
    specification stated and proved over it.

    Conventions of the embedding.
    - A Python [str] is a [string]: a sequence of characters whose code
      points lie below 256.  Character classes ([str.isspace], [str.lower],
      the regular-expression class [\w]) are the interpreter's Unicode
      tables restricted to that range.
    - Every exception of the program is a subclass of [Exception]; a call
      that may raise returns a [result].
    - The language model, the JSON decoder, the document reader and the
      directory tree are the environment: the functions take them as
      parameters.  Log records have no influence on any result and are
      left out; setting the logging up, which can raise, is part of the
      start of the program.
    - The extractor runs in a state-and-exception monad over a [world]:
      the content of the results file, the trace of what was done, and
      which of the coming writes of the results file raise.
    - Paths are those of Windows, as the constants of the scripts are:
      [os.path] is [ntpath]. *)

From Stdlib Require Import Bool Arith Lia List NArith ZArith Ascii String Sorted.
From Stdlib Require OrderedTypeEx.

Set Warnings "-register-all".
Import ListNotations.

Open Scope bool_scope.
Open Scope string_scope.

(* ================================================================== *)
(** ** Python strings *)

Module Py.

Definition code (c : ascii) : N := N_of_ascii c.

Definition between (lo hi : N) (c : ascii) : bool :=
  ((lo <=? code c) && (code c <=? hi))%N.

Definition code_is (n : N) (c : ascii) : bool := (code c =? n)%N.

(** [str.isspace] on one character: TAB..CR, FS..US, SPACE, NEL, NBSP. *)
Definition isspace (c : ascii) : bool :=
  between 9 13 c || between 28 32 c || code_is 133 c || code_is 160 c.

(** [str.isalnum] on one character. *)
Definition isalnum (c : ascii) : bool :=
  between 48 57 c || between 65 90 c || between 97 122 c
  || code_is 170 c || code_is 178 c || code_is 179 c || code_is 181 c
  || code_is 185 c || code_is 186 c
  || between 188 190 c || between 192 214 c || between 216 246 c
  || between 248 255 c.

(** The class [\w] of the [re] module on [str] patterns. *)
Definition is_word (c : ascii) : bool := isalnum c || code_is 95 c.

(** [str.lower] on one character. *)
Definition lower_char (c : ascii) : ascii :=
  if between 65 90 c || between 192 214 c || between 216 222 c
  then ascii_of_N (code c + 32) else c.

Fixpoint lower (s : string) : string :=
  match s with
  | EmptyString => EmptyString
  | String c r => String (lower_char c) (lower r)
  end.

Fixpoint lstrip (s : string) : string :=
  match s with
  | EmptyString => EmptyString
  | String c r => if isspace c then lstrip r else s
  end.

Fixpoint rstrip (s : string) : string :=
  match s with
  | EmptyString => EmptyString
  | String c r =>
      match rstrip r with
      | EmptyString => if isspace c then EmptyString else String c EmptyString
      | r' => String c r'
      end
  end.

(** [s.strip()] *)
Definition strip (s : string) : string := rstrip (lstrip s).

(** [not s] for a string: true on the empty string only. *)
Definition falsy (s : string) : bool :=
  match s with EmptyString => true | _ => false end.

(** [c in s] for a one-character [c]. *)
Fixpoint contains (c : ascii) (s : string) : bool :=
  match s with
  | EmptyString => false
  | String d r => (d =? c)%char || contains c r
  end.

(** [s.startswith(p)] *)
Definition startswith (p s : string) : bool := String.prefix p s.

(** [s.endswith(p)] *)
Definition endswith (p s : string) : bool :=
  (String.length p <=? String.length s)%nat
  && (substring (String.length s - String.length p) (String.length p) s =? p).

(** [s.split(sep)] for a one-character separator: never an empty list. *)
Fixpoint split (sep : ascii) (s : string) : list string :=
  match s with
  | EmptyString => [EmptyString]
  | String c r =>
      if (c =? sep)%char then EmptyString :: split sep r
      else match split sep r with
           | [] => [String c EmptyString]
           | w :: ws => String c w :: ws
           end
  end.

(** [l[-1]] on a list known to be non-empty ([d] is never reached). *)
Definition last_item (l : list string) (d : string) : string := List.last l d.

(** [s[:n]] *)
Definition slice_to (n : nat) (s : string) : string := substring 0 n s.

(** [sep.join(l)] *)
Definition join (sep : string) (l : list string) : string := String.concat sep l.

Definition newline : ascii := ascii_of_N 10.
Definition comma : ascii := ascii_of_N 44.

End Py.

(* ================================================================== *)
(** ** Location cleanup: [clean_location] *)

(** The alternatives of the pattern
    [\b(highway|road|street|main|lane)\b.*], in their order. *)
Definition roadway_keywords : list string :=
  ["highway"; "road"; "street"; "main"; "lane"].

(** A literal of the pattern against the subject under [re.IGNORECASE]:
    on success, whether the last character consumed is a word character,
    and what follows it. *)
Fixpoint match_literal (lit : string) (prev_word : bool) (s : string)
  : option (bool * string) :=
  match lit with
  | EmptyString => Some (prev_word, s)
  | String p lit' =>
      match s with
      | EmptyString => None
      | String c r =>
          if (Py.lower_char c =? Py.lower_char p)%char
          then match_literal lit' (Py.is_word c) r
          else None
      end
  end.

(** [\b] between a character (word or not) and the rest of the subject;
    outside the subject counts as a non-word character. *)
Definition word_boundary (prev_word : bool) (s : string) : bool :=
  xorb prev_word
       (match s with EmptyString => false | String c _ => Py.is_word c end).

(** [(highway|...)\b]: the first alternative that matches and is followed
    by a word boundary. *)
Definition match_keyword (prev_word : bool) (s : string) : bool :=
  existsb (fun kw =>
             match match_literal kw prev_word s with
             | Some (w, r) => word_boundary w r
             | None => false
             end) roadway_keywords.

(** Does a match of the whole pattern start here?  The trailing [.*]
    always succeeds. *)
Definition match_here (prev_word : bool) (s : string) : bool :=
  word_boundary prev_word s && match_keyword prev_word s.

(** [re.sub(pattern, empty, s, flags=re.IGNORECASE)], scanning left to right.
    [in_match] holds while the [.*] of a match is consuming characters: it
    stops in front of a newline, where the search resumes. *)
Fixpoint re_sub_from (prev_word in_match : bool) (s : string) : string :=
  match s with
  | EmptyString => EmptyString
  | String c r =>
      if in_match && negb (c =? Py.newline)%char
      then re_sub_from (Py.is_word c) true r
      else if match_here prev_word s
           then re_sub_from (Py.is_word c) true r
           else String c (re_sub_from (Py.is_word c) false r)
  end.

Definition re_sub_roadway (s : string) : string := re_sub_from false false s.

Definition clean_location (location : string) : string :=
  if Py.falsy location then EmptyString
  else if Py.contains Py.comma location
       then Py.strip (Py.last_item (Py.split Py.comma location) EmptyString)
       else Py.strip (re_sub_roadway location).

Definition lf : string := String Py.newline EmptyString.

(* ================================================================== *)
(** ** Exceptions and results *)

(** The exception classes the program distinguishes: the inner handler of
    [analyze_ir_content] catches [json.JSONDecodeError] only, every other
    handler catches [Exception]. *)
Inductive exn : Type :=
| JSONDecodeError
| AttributeError
| OtherError (name : string).

Inductive result (A : Type) : Type :=
| Ok (a : A)
| Raise (e : exn).

Arguments Ok {A} a.
Arguments Raise {A} e.

Definition is_JSONDecodeError (e : exn) : bool :=
  match e with JSONDecodeError => true | _ => false end.

Definition any_Exception (e : exn) : bool := true.

Definition rbind {A B : Type} (r : result A) (k : A -> result B) : result B :=
  match r with
  | Ok a => k a
  | Raise e => Raise e
  end.

(* ================================================================== *)
(** ** JSON values as [json.loads] builds them *)

(** A number keeps its lexeme: nothing in the program computes with it. *)
Inductive value : Type :=
| JNull
| JBool (b : bool)
| JNumber (lexeme : string)
| JString (s : string)
| JArray (items : list value)
| JObject (members : list (string * value)).

Definition is_str (v : value) : bool :=
  match v with JString _ => true | _ => false end.

(** The members are kept in the order of the text; the decoder makes a
    [dict] of them, in which a later member replaces an earlier one of the
    same name. *)
Fixpoint dict_lookup (key : string) (members : list (string * value))
  : option value :=
  match members with
  | [] => None
  | (k, v) :: rest =>
      match dict_lookup key rest with
      | Some v' => Some v'
      | None => if (k =? key)%string then Some v else None
      end
  end.

(** [parsed.get(key, default).strip()]: [get] exists on a dict only and
    [strip] on a string only. *)
Definition get_strip (parsed : value) (key default : string) : result string :=
  match parsed with
  | JObject members =>
      match dict_lookup key members with
      | Some (JString s) => Ok (Py.strip s)
      | Some _ => Raise AttributeError
      | None => Ok (Py.strip default)
      end
  | _ => Raise AttributeError
  end.

Definition metadata : Type := string * string * string * string * string.

Definition default_metadata : metadata :=
  ("Unknown", "Unknown", "Unknown Department", "Unknown", "Unknown").

(** The five assignments that follow a successful [json.loads], in their
    order. *)
Definition read_fields (parsed : value) : result metadata :=
  rbind (get_strip parsed "state" "Unknown") (fun state =>
  rbind (get_strip parsed "location" "Unknown") (fun loc =>
  let location := clean_location loc in
  rbind (get_strip parsed "department" "Unknown Department") (fun department =>
  rbind (get_strip parsed "audit_conducted_year" "Unknown") (fun audit_year =>
  rbind (get_strip parsed "financial_year" "Unknown") (fun financial_year =>
  Ok (state, location, department, audit_year, financial_year)))))).

(* ================================================================== *)
(** ** [re.search(r'\{.*\}', content, re.DOTALL)] *)

Definition lbrace : ascii := ascii_of_N 123.
Definition rbrace : ascii := ascii_of_N 125.

(** [.*\}] anchored at the head of [s], with [.] matching every character:
    the greedy star gives characters back until a [}] follows, so the
    longest prefix of [s] that ends in [}]. *)
Fixpoint greedy_to_rbrace (s : string) : option string :=
  match s with
  | EmptyString => None
  | String c r =>
      match greedy_to_rbrace r with
      | Some m => Some (String c m)
      | None => if (c =? rbrace)%char then Some (String c EmptyString) else None
      end
  end.

(** The search tries the start positions from the left; [json_match.group()]
    is the text matched. *)
Fixpoint search_braces (s : string) : option string :=
  match s with
  | EmptyString => None
  | String c r =>
      if (c =? lbrace)%char
      then match greedy_to_rbrace r with
           | Some m => Some (String c m)
           | None => search_braces r
           end
      else search_braces r
  end.

(* ================================================================== *)
(** ** A reference decoder for [json.loads]

    The theorems on [analyze_ir_content] hold for every decoder.  This one
    follows the grammar of Python's [json] module (strict mode) and runs
    the examples.  An escape [\uXXXX] above [00ff] denotes a character
    outside the alphabet of the embedding and is rejected. *)

Module JSON.

Import Py.

Definition is_ws (c : ascii) : bool :=
  code_is 32 c || code_is 9 c || code_is 10 c || code_is 13 c.

Fixpoint skip_ws (s : string) : string :=
  match s with
  | EmptyString => EmptyString
  | String c r => if is_ws c then skip_ws r else s
  end.

Definition is_digit (c : ascii) : bool := between 48 57 c.

(** The digits at the head, and what follows them. *)
Fixpoint span_digits (s : string) : string * string :=
  match s with
  | EmptyString => (EmptyString, EmptyString)
  | String c r =>
      if is_digit c
      then let (ds, rest) := span_digits r in (String c ds, rest)
      else (EmptyString, s)
  end.

(** [s[idx:idx+n] == lit] with the text after it. *)
Fixpoint strip_prefix (lit s : string) : option string :=
  match lit with
  | EmptyString => Some s
  | String p lit' =>
      match s with
      | EmptyString => None
      | String c r => if (c =? p)%char then strip_prefix lit' r else None
      end
  end.

(** The integer part: an optional minus sign, then [0] or a digit from
    1 to 9 followed by digits. *)
Definition match_integer (s : string) : option (string * string) :=
  let (sign, s1) :=
    match s with
    | String c r => if code_is 45 c then ("-", r) else (EmptyString, s)
    | EmptyString => (EmptyString, s)
    end in
  match s1 with
  | EmptyString => None
  | String c r =>
      if code_is 48 c then Some (sign ++ "0", r)
      else if between 49 57 c
           then let (ds, rest) := span_digits r in
                Some (sign ++ String c ds, rest)
           else None
  end.

(** The optional fraction: a point and at least one digit. *)
Definition match_fraction (s : string) : string * string :=
  match s with
  | String c r =>
      if code_is 46 c
      then match span_digits r with
           | (EmptyString, _) => (EmptyString, s)
           | (ds, rest) => (String c ds, rest)
           end
      else (EmptyString, s)
  | EmptyString => (EmptyString, s)
  end.

(** The optional exponent: [e] or [E], an optional sign, at least one
    digit. *)
Definition match_exponent (s : string) : string * string :=
  match s with
  | String e r =>
      if code_is 101 e || code_is 69 e
      then let (sign, r1) :=
             match r with
             | String g r' =>
                 if code_is 45 g || code_is 43 g
                 then (String g EmptyString, r') else (EmptyString, r)
             | EmptyString => (EmptyString, r)
             end in
           match span_digits r1 with
           | (EmptyString, _) => (EmptyString, s)
           | (ds, rest) => (String e (sign ++ ds), rest)
           end
      else (EmptyString, s)
  | EmptyString => (EmptyString, s)
  end.

Definition match_number (s : string) : option (string * string) :=
  match match_integer s with
  | None => None
  | Some (i, r1) =>
      let (f, r2) := match_fraction r1 in
      let (e, r3) := match_exponent r2 in
      Some (i ++ f ++ e, r3)
  end.

Definition hex_digit (c : ascii) : option N :=
  if between 48 57 c then Some (code c - 48)%N
  else if between 97 102 c then Some (code c - 87)%N
  else if between 65 70 c then Some (code c - 55)%N
  else None.

Definition hex4 (a b c d : ascii) : option N :=
  match hex_digit a, hex_digit b, hex_digit c, hex_digit d with
  | Some x, Some y, Some z, Some w => Some (((x * 16 + y) * 16 + z) * 16 + w)%N
  | _, _, _, _ => None
  end.

(** The one-character escapes: quote, backslash, slash, b, f, n, r, t. *)
Definition escape (e : ascii) : option ascii :=
  if code_is 34 e then Some e
  else if code_is 92 e then Some e
  else if code_is 47 e then Some e
  else if code_is 98 e then Some (ascii_of_N 8)
  else if code_is 102 e then Some (ascii_of_N 12)
  else if code_is 110 e then Some (ascii_of_N 10)
  else if code_is 114 e then Some (ascii_of_N 13)
  else if code_is 116 e then Some (ascii_of_N 9)
  else None.

Definition cons_to (c : ascii) (r : option (string * string))
  : option (string * string) :=
  match r with
  | Some (t, rest) => Some (String c t, rest)
  | None => None
  end.

(** [scanstring], entered behind the opening quote: the decoded text and
    what follows the closing quote. *)
Fixpoint scan_string (s : string) : option (string * string) :=
  match s with
  | EmptyString => None
  | String c r =>
      if code_is 34 c then Some (EmptyString, r)
      else if code_is 92 c then
        match r with
        | EmptyString => None
        | String e r' =>
            if code_is 117 e then
              match r' with
              | String h1 (String h2 (String h3 (String h4 r''))) =>
                  match hex4 h1 h2 h3 h4 with
                  | Some n =>
                      if (n <? 256)%N
                      then cons_to (ascii_of_N n) (scan_string r'')
                      else None
                  | None => None
                  end
              | _ => None
              end
            else match escape e with
                 | Some d => cons_to d (scan_string r')
                 | None => None
                 end
        end
      else if (code c <? 32)%N then None
      else cons_to c (scan_string r)
  end.

(** [scan_once] with [JSONObject] and [JSONArray].  Every call consumes a
    character of the text, so a fuel above its length is never used up. *)
Fixpoint scan_once (fuel : nat) (s : string) : option (value * string) :=
  match fuel with
  | O => None
  | S fuel' =>
      match s with
      | EmptyString => None
      | String c r =>
          if code_is 34 c then
            match scan_string r with
            | Some (t, rest) => Some (JString t, rest)
            | None => None
            end
          else if code_is 123 c then
            match skip_ws r with
            | String d r' =>
                if code_is 125 d then Some (JObject [], r')
                else if code_is 34 d then
                  match scan_members fuel' r' with
                  | Some (ms, rest) => Some (JObject ms, rest)
                  | None => None
                  end
                else None
            | EmptyString => None
            end
          else if code_is 91 c then
            match skip_ws r with
            | String d r' =>
                if code_is 93 d then Some (JArray [], r')
                else match scan_items fuel' (String d r') with
                     | Some (vs, rest) => Some (JArray vs, rest)
                     | None => None
                     end
            | EmptyString => None
            end
          else
            match strip_prefix "null" s with
            | Some rest => Some (JNull, rest)
            | None =>
            match strip_prefix "true" s with
            | Some rest => Some (JBool true, rest)
            | None =>
            match strip_prefix "false" s with
            | Some rest => Some (JBool false, rest)
            | None =>
            match match_number s with
            | Some (lexeme, rest) => Some (JNumber lexeme, rest)
            | None =>
            match strip_prefix "NaN" s with
            | Some rest => Some (JNumber "NaN", rest)
            | None =>
            match strip_prefix "Infinity" s with
            | Some rest => Some (JNumber "Infinity", rest)
            | None =>
            match strip_prefix "-Infinity" s with
            | Some rest => Some (JNumber "-Infinity", rest)
            | None => None
            end end end end end end end
      end
  end

(** The members of an object, entered behind the opening quote of a name. *)
with scan_members (fuel : nat) (s : string)
  : option (list (string * value) * string) :=
  match fuel with
  | O => None
  | S fuel' =>
      match scan_string s with
      | None => None
      | Some (key, r1) =>
          match skip_ws r1 with
          | String c r2 =>
              if code_is 58 c then
                match scan_once fuel' (skip_ws r2) with
                | None => None
                | Some (v, r3) =>
                    match skip_ws r3 with
                    | String d r4 =>
                        if code_is 125 d then Some ([(key, v)], r4)
                        else if code_is 44 d then
                          match skip_ws r4 with
                          | String q r5 =>
                              if code_is 34 q then
                                match scan_members fuel' r5 with
                                | Some (ms, rest) => Some ((key, v) :: ms, rest)
                                | None => None
                                end
                              else None
                          | EmptyString => None
                          end
                        else None
                    | EmptyString => None
                    end
                end
              else None
          | EmptyString => None
          end
      end
  end

(** The items of an array, entered at the first character of an item. *)
with scan_items (fuel : nat) (s : string) : option (list value * string) :=
  match fuel with
  | O => None
  | S fuel' =>
      match scan_once fuel' s with
      | None => None
      | Some (v, r1) =>
          match skip_ws r1 with
          | String d r2 =>
              if code_is 93 d then Some ([v], r2)
              else if code_is 44 d then
                match scan_items fuel' (skip_ws r2) with
                | Some (vs, rest) => Some (v :: vs, rest)
                | None => None
                end
              else None
          | EmptyString => None
          end
      end
  end.

(** [json.loads]: one value between optional white space, nothing else. *)
Definition loads (s : string) : result value :=
  match scan_once (S (String.length s)) (skip_ws s) with
  | Some (v, rest) =>
      match skip_ws rest with
      | EmptyString => Ok v
      | _ => Raise JSONDecodeError
      end
  | None => Raise JSONDecodeError
  end.

End JSON.

(** JSON texts are written with [']  for the quotation mark. *)
Fixpoint json_text (s : string) : string :=
  match s with
  | EmptyString => EmptyString
  | String c r =>
      String (if Py.code_is 39 c then ascii_of_N 34 else c) (json_text r)
  end.

(* ================================================================== *)
(** ** The results table and the world of the extractor *)

(** One line of the results sheet, under its six column heads. *)
Record row : Type := mk_row {
  Filename : string;
  State : string;
  Location : string;
  Department : string;
  Audit_Conducted_Year : string;
  Financial_Year : string
}.

(** A [DataFrame] with these six columns. *)
Definition table : Type := list row.

Definition blank_row : row :=
  mk_row EmptyString EmptyString EmptyString EmptyString EmptyString
         EmptyString.

(** What the extractor does to its surroundings, in the order it does it. *)
Inductive event : Type :=
| Opened (doc_path : string)
| Invoked (doc_text : string)
| Saved (t : table).

(** [results_file] is the content of [RESULTS_FILE] ([None]: no such
    file); [faults] tells for the coming calls of [to_excel], in their
    order, which ones raise (none once the list is used up). *)
Record world : Type := mk_world {
  results_file : option table;
  trace : list event;
  faults : list bool
}.

Definition M (A : Type) : Type := world -> result A * world.

Definition ret {A : Type} (a : A) : M A := fun w => (Ok a, w).

Definition raise {A : Type} (e : exn) : M A := fun w => (Raise e, w).

Definition bind {A B : Type} (m : M A) (k : A -> M B) : M B :=
  fun w =>
    match m w with
    | (Ok a, w') => k a w'
    | (Raise e, w') => (Raise e, w')
    end.

Notation "x <- m ;; k" := (bind m (fun x => k))
  (at level 61, m at next level, right associativity).
Notation "m ;;; k" := (bind m (fun _ => k))
  (at level 61, right associativity).

(** [try: body except E: handler], where [catches] tells the classes [E]
    covers.  What the body did before it raised stays done. *)
Definition try_except {A : Type} (catches : exn -> bool)
           (body : M A) (handler : exn -> M A) : M A :=
  fun w =>
    match body w with
    | (Ok a, w') => (Ok a, w')
    | (Raise e, w') => if catches e then handler e w' else (Raise e, w')
    end.

(** The same for a computation that leaves the world alone. *)
Definition rtry {A : Type} (catches : exn -> bool)
           (body : result A) (handler : exn -> result A) : result A :=
  match body with
  | Ok a => Ok a
  | Raise e => if catches e then handler e else Raise e
  end.

Definition lift {A : Type} (r : result A) : M A := fun w => (r, w).

Definition record (e : event) (w : world) : world :=
  mk_world (results_file w) (trace w ++ [e])%list (faults w).

(** [DataFrame.to_excel(RESULTS_FILE, ...)]: replaces the whole file, or
    raises and leaves it as it was. *)
Definition to_excel (t : table) : M unit :=
  fun w =>
    match faults w with
    | true :: later =>
        (Raise (OtherError "OSError"),
         mk_world (results_file w) (trace w) later)
    | false :: later =>
        (Ok tt, mk_world (Some t) (trace w ++ [Saved t])%list later)
    | [] => (Ok tt, mk_world (Some t) (trace w ++ [Saved t])%list [])
    end.

(** [os.path.exists(RESULTS_FILE)] *)
Definition results_file_exists : M bool :=
  fun w => (Ok (match results_file w with Some _ => true | None => false end), w).

(* ================================================================== *)
(** ** The directory tree of the input folder *)

Inductive node : Type :=
| File (name : string)
| Dir (name : string) (entries : list node).

Definition node_name (n : node) : string :=
  match n with File name => name | Dir name _ => name end.

Definition is_dir (n : node) : bool :=
  match n with Dir _ _ => true | File _ => false end.

(** [os.listdir]: the names of the files and of the directories. *)
Definition os_listdir (entries : list node) : list string :=
  map node_name entries.

Definition dirnames (entries : list node) : list string :=
  map node_name (filter is_dir entries).

Definition filenames (entries : list node) : list string :=
  map node_name (filter (fun n => negb (is_dir n)) entries).

(** [os.path.join(root, name)] of [ntpath] for a plain [name]. *)
Definition os_path_join (root name : string) : string :=
  match String.length root with
  | O => name
  | S n =>
      match String.get n root with
      | Some c =>
          if Py.code_is 92 c || Py.code_is 47 c || Py.code_is 58 c
          then root ++ name
          else root ++ String (ascii_of_N 92) name
      | None => root ++ name
      end
  end.

(** [os.walk(top)], top down: a directory first, then what is below each
    of its sub-directories. *)
Fixpoint walk_node (parent : string) (n : node)
  : list (string * list string * list string) :=
  match n with
  | File _ => []
  | Dir name entries =>
      let root := os_path_join parent name in
      (root, dirnames entries, filenames entries)
        :: flat_map (walk_node root) entries
  end.

Definition os_walk (top : string) (entries : list node)
  : list (string * list string * list string) :=
  (top, dirnames entries, filenames entries)
    :: flat_map (walk_node top) entries.

(* ================================================================== *)
(** ** The extractor: [main.py] *)

Definition MY_DOCS_FOLDER : string := "C:/Users/Soumy/OneDrive/Desktop/IR/input".
Definition MAX_TEXT_LENGTH : nat := 5000.

Section Extractor.

(** [llm.invoke] with the fixed prompt and the text of a document: the
    [content] of the response, or the exception of the call. *)
Variable llm : string -> result string.

(** [json.loads] *)
Variable json_loads : string -> result value.

(** [Document(doc_path)]: the texts of the paragraphs, or the exception
    of the reader. *)
Variable Document : string -> result (list string).

(** What is in [MY_DOCS_FOLDER]. *)
Variable input_folder : list node.

Definition open_document (doc_path : string) : M (list string) :=
  fun w => (Document doc_path, record (Opened doc_path) w).

Definition llm_invoke (doc_text : string) : M string :=
  fun w => (llm doc_text, record (Invoked doc_text) w).

Definition extract_text_from_docx (doc_path : string) : M string :=
  try_except any_Exception
    (paragraphs <- open_document doc_path ;;
     let lines :=
       map Py.strip
           (filter (fun text => negb (Py.falsy (Py.strip text))) paragraphs) in
     let extracted_text := Py.join lf lines in
     if (MAX_TEXT_LENGTH <? String.length extracted_text)%nat
     then ret (Py.slice_to MAX_TEXT_LENGTH extracted_text)
     else ret extracted_text)
    (fun _ => ret EmptyString).

(** The inner [try] of [analyze_ir_content] with its handler. *)
Definition parse_content (content : string) : result metadata :=
  rtry is_JSONDecodeError
    (rbind (json_loads content) read_fields)
    (fun _ =>
       match search_braces content with
       | Some group => rbind (json_loads group) read_fields
       | None => Ok default_metadata
       end).

Definition analyze_ir_content (doc_text : string) : M metadata :=
  if Py.falsy doc_text then ret default_metadata
  else
    try_except any_Exception
      (response <- llm_invoke doc_text ;;
       let content := Py.strip response in
       lift (parse_content content))
      (fun _ => ret default_metadata).

Definition is_docx (fname : string) : bool :=
  Py.endswith ".docx" (Py.lower fname).

(** The body of the inner loop for one name that passed the filter. *)
Definition process_file (root fname : string) (rows : table) : M table :=
  let fpath := os_path_join root fname in
  text <- extract_text_from_docx fpath ;;
  md <- analyze_ir_content text ;;
  let '(state, location, department, audit_year, financial_year) := md in
  let rows' :=
    (rows ++ [mk_row fname state location department audit_year
                     financial_year])%list in
  to_excel rows' ;;;
  ret rows'.

(** [for fname in files: ...] *)
Fixpoint for_files (root : string) (files : list string) (rows : table)
  : M table :=
  match files with
  | [] => ret rows
  | fname :: files' =>
      if negb (is_docx fname) then for_files root files' rows
      else rows' <- process_file root fname rows ;;
           for_files root files' rows'
  end.

(** [for root, _, files in os.walk(MY_DOCS_FOLDER): ...] *)
Fixpoint for_walk (dirs : list (string * list string * list string))
         (rows : table) : M table :=
  match dirs with
  | [] => ret rows
  | (root, _, files) :: dirs' =>
      rows' <- for_files root files rows ;;
      for_walk dirs' rows'
  end.

Definition main_process : M unit :=
  let docx_files := filter is_docx (os_listdir input_folder) in
  match docx_files with
  | [] => to_excel [blank_row]
  | _ :: _ =>
      rows <- for_walk (os_walk MY_DOCS_FOLDER input_folder) [] ;;
      match rows with
      | [] => to_excel []
      | _ :: _ => ret tt
      end
  end.

(** What the [try] under [if __name__ == "__main__"] guards. *)
Definition guarded_main : M unit :=
  present <- results_file_exists ;;
  (if negb present then to_excel [] else ret tt) ;;;
  main_process.

(** The script run as a program. *)
Definition script_main : M unit :=
  try_except any_Exception guarded_main (fun _ => to_excel [blank_row]).

End Extractor.

(* ================================================================== *)
(** ** The reconciler: [scripts.py] *)

Module Reconciler.

Open Scope Z_scope.

(** [p.rfind(c)]: the last index of [c], or [-1]. *)
Fixpoint rfind_from (c : ascii) (p : string) (i : Z) : Z :=
  match p with
  | EmptyString => -1
  | String d r =>
      let j := rfind_from c r (i + 1) in
      if 0 <=? j then j else if (d =? c)%char then i else -1
  end.

Definition rfind (c : ascii) (p : string) : Z := rfind_from c p 0.

(** [p[i:j]] for indices that are not negative. *)
Definition slice (i j : Z) (p : string) : string :=
  substring (Z.to_nat i) (Z.to_nat (j - i)) p.

Definition slice_from (i : Z) (p : string) : string :=
  substring (Z.to_nat i) (String.length p - Z.to_nat i) p.

Definition dot : ascii := ascii_of_N 46.

(** The loop over the leading dots of a name: is some character of the
    slice not the extension separator? *)
Fixpoint some_not_dot (s : string) : bool :=
  match s with
  | EmptyString => false
  | String c r => if negb (c =? dot)%char then true else some_not_dot r
  end.

(** [os.path.splitext] of [ntpath]. *)
Definition splitext (p : string) : string * string :=
  let sepIndex := Z.max (rfind (ascii_of_N 92) p) (rfind (ascii_of_N 47) p) in
  let dotIndex := rfind dot p in
  if (sepIndex <? dotIndex)
     && some_not_dot (slice (sepIndex + 1) dotIndex p)
  then (slice 0 dotIndex p, slice_from dotIndex p)
  else (p, EmptyString).

Definition stem (f : string) : string := fst (splitext f).

Close Scope Z_scope.

Definition mem (x : string) (l : list string) : bool :=
  existsb (String.eqb x) l.

(** [set(a) - set(b)], its elements listed once each. *)
Definition set_minus (a b : list string) : list string :=
  nodup string_dec (filter (fun x => negb (mem x b)) a).

Fixpoint insert_sorted (x : string) (l : list string) : list string :=
  match l with
  | [] => [x]
  | y :: l' => if String.leb x y then x :: l else y :: insert_sorted x l'
  end.

(** [sorted(...)] on strings: by code points, a prefix first. *)
Definition sorted (l : list string) : list string :=
  fold_right insert_sorted [] l.

(** The two sheets of [comparison_output.xlsx], each a single column. *)
Record workbook : Type := mk_workbook {
  Missing_Files : list string;
  Extra_Files : list string
}.

Section Run.

(** [os.listdir(input_folder)] *)
Variable listing : list string.

(** [df.iloc[:, 0].astype(str).tolist()]: the first column of the results
    sheet, as strings. *)
Variable processed_files : list string.

(** [shutil.copy2(src_path, dest_path)] for a name of the listing.  It
    raises on a directory, which [os.listdir] lists like a file, and
    whenever the copy cannot be made. *)
Variable copy2 : string -> result unit.

Definition input_files : list string :=
  filter (Py.endswith ".docx") listing.

Definition input_files_no_ext : list string := map stem input_files.

Definition processed_files_no_ext : list string := map stem processed_files.

Definition missing_in_results : list string :=
  sorted (set_minus input_files_no_ext processed_files_no_ext).

Definition extra_in_results : list string :=
  sorted (set_minus processed_files_no_ext input_files_no_ext).

Definition comparison_output : workbook :=
  mk_workbook missing_in_results extra_in_results.

(** The names that pass the test of the loop of step 5, in its order:
    those the loop hands to [shutil.copy2] if it gets to them. *)
Definition copy_candidates : list string :=
  filter (fun file => mem (stem file) missing_in_results) input_files.

(** [for file in input_files: ...]: the files copied and how the loop
    ends.  Nothing catches what [shutil.copy2] raises: the exception ends
    the loop, and the script with it. *)
Fixpoint copy_loop (files : list string) : list string * result unit :=
  match files with
  | [] => ([], Ok tt)
  | file :: files' =>
      if mem (stem file) missing_in_results then
        match copy2 file with
        | Ok _ =>
            let (copied, r) := copy_loop files' in (file :: copied, r)
        | Raise e => ([], Raise e)
        end
      else copy_loop files'
  end.

(** The files in the folder of unprocessed documents after the loop. *)
Definition copied_to_unprocessed : list string :=
  fst (copy_loop input_files).

(** How the script ends, once the workbook is written. *)
Definition copy_outcome : result unit := snd (copy_loop input_files).

End Run.

End Reconciler.

(* ================================================================== *)
(** * The readings of the specification *)

(** ** Location cleanup *)

(** The text behind the last [c] of [s] ([s] itself without any). *)
Fixpoint after_last (c : ascii) (s : string) : string :=
  match s with
  | EmptyString => EmptyString
  | String d r =>
      if Py.contains c r then after_last c r
      else if (d =? c)%char then r else s
  end.

(** The reading of the specification: the first roadway word that stands
    as a whole word, with everything behind it, goes. *)
Fixpoint cut_at_roadway (prev_word : bool) (s : string) : string :=
  match s with
  | EmptyString => EmptyString
  | String c r =>
      if match_here prev_word s then EmptyString
      else String c (cut_at_roadway (Py.is_word c) r)
  end.

Definition claimed_clean_location (location : string) : string :=
  if Py.contains Py.comma location
  then Py.strip (after_last Py.comma location)
  else Py.strip (cut_at_roadway false location).

(** The text in front of the first line break. *)
Fixpoint first_line (s : string) : string :=
  match s with
  | EmptyString => EmptyString
  | String c r =>
      if (c =? Py.newline)%char then EmptyString
      else String c (first_line r)
  end.

(** A literal none of whose characters can match a line break. *)
Fixpoint no_newline_literal (lit : string) : bool :=
  match lit with
  | EmptyString => true
  | String p lit' =>
      negb (Py.lower_char Py.newline =? Py.lower_char p)%char
      && no_newline_literal lit'
  end.

(** ** Metadata inference *)

Definition five_keys : list string :=
  ["state"; "location"; "department"; "audit_conducted_year";
   "financial_year"].

(** A field of the reply as the specification words it: the trimmed text
    of the member, or the sentinel when the object has no such member. *)
Definition field_or (members : list (string * value)) (key : string)
           (post : string -> string) (sentinel : string) : string :=
  match dict_lookup key members with
  | Some (JString s) => post (Py.strip s)
  | _ => sentinel
  end.

Definition fields_of (members : list (string * value)) : metadata :=
  (field_or members "state" (fun s => s) "Unknown",
   field_or members "location" clean_location "Unknown",
   field_or members "department" (fun s => s) "Unknown Department",
   field_or members "audit_conducted_year" (fun s => s) "Unknown",
   field_or members "financial_year" (fun s => s) "Unknown").

(** Every expected member that is there is a string. *)
Definition all_text (members : list (string * value)) : bool :=
  forallb (fun key => match dict_lookup key members with
                      | Some v => is_str v
                      | None => true
                      end) five_keys.

Definition metadata_of_value (v : value) : metadata :=
  match v with
  | JObject members =>
      if all_text members then fields_of members else default_metadata
  | _ => default_metadata
  end.

(** The policy of the specification for a reply, trimmed: the strict
    parse, then the parse of the text the search finds, then the
    sentinels. *)
Definition parsing_policy (json_loads : string -> result value)
           (content : string) : metadata :=
  match json_loads content with
  | Ok v => metadata_of_value v
  | Raise JSONDecodeError =>
      match search_braces content with
      | Some group =>
          match json_loads group with
          | Ok v => metadata_of_value v
          | Raise _ => default_metadata
          end
      | None => default_metadata
      end
  | Raise _ => default_metadata
  end.

(** The reply parses as this object, at once or through the search. *)
Definition parses_as_object (json_loads : string -> result value)
           (content : string) (members : list (string * value)) : Prop :=
  json_loads content = Ok (JObject members)
  \/ (json_loads content = Raise JSONDecodeError
      /\ exists group, search_braces content = Some group
                       /\ json_loads group = Ok (JObject members)).

(** What is returned for the result of the inner [try]: the outer handler
    turns an exception into the sentinels. *)
Definition outcome (r : result metadata) : metadata :=
  match r with
  | Ok md => md
  | Raise _ => default_metadata
  end.

(** The second half of C1 as the specification states it: an object
    embedded in prose, the first brace-delimited text of the reply, is
    what the inference extracts. *)
Definition embedded_object_claim : Prop :=
  forall (llm : string -> result string) (doc_text pre obj post : string)
         (members : list (string * value)) (w : world),
    Py.falsy doc_text = false ->
    llm doc_text = Ok (pre ++ obj ++ post) ->
    Py.contains lbrace pre = false ->
    JSON.loads obj = Ok (JObject members) ->
    fst (analyze_ir_content llm JSON.loads doc_text w)
    = Ok (metadata_of_value (JObject members)).

(** ** Text extraction *)

(** The kept paragraphs as the specification words them: the trimmed
    texts that are not empty. *)
Definition trimmed_nonempty (paragraphs : list string) : list string :=
  filter (fun t => negb (Py.falsy t)) (map Py.strip paragraphs).

(** ** The documents of a run, one after the other *)

(** A document of the walk: the directory it is in and its name. *)
Definition job : Type := string * string.

Definition jobs_in (dir : string * list string * list string) : list job :=
  let '(root, _, files) := dir in
  map (pair root) (filter (fun f => is_docx f) files).

(** The documents the driver enumerates, in the order it meets them. *)
Definition jobs_of (dirs : list (string * list string * list string))
  : list job :=
  flat_map jobs_in dirs.

Definition add_events (es : list event) (w : world) : world :=
  mk_world (results_file w) (trace w ++ es)%list (faults w).

Section Readings.

Variable llm : string -> result string.
Variable json_loads : string -> result value.
Variable Document : string -> result (list string).

(** The text [extract_text_from_docx] returns for a path. *)
Definition text_of (doc_path : string) : string :=
  match Document doc_path with
  | Ok paragraphs =>
      let joined := Py.join lf (trimmed_nonempty paragraphs) in
      if (MAX_TEXT_LENGTH <? String.length joined)%nat
      then Py.slice_to MAX_TEXT_LENGTH joined else joined
  | Raise _ => EmptyString
  end.

(** The five fields the inference gives for a text. *)
Definition metadata_for (text : string) : metadata :=
  if Py.falsy text then default_metadata
  else match llm text with
       | Ok reply => outcome (parse_content json_loads (Py.strip reply))
       | Raise _ => default_metadata
       end.

Definition job_text (j : job) : string :=
  text_of (os_path_join (fst j) (snd j)).

(** The row a document contributes. *)
Definition row_for (j : job) : row :=
  let '(state, location, department, audit_year, financial_year) :=
    metadata_for (job_text j) in
  mk_row (snd j) state location department audit_year financial_year.

(** What is done for a document before its row is saved. *)
Definition events_for (j : job) : list event :=
  Opened (os_path_join (fst j) (snd j))
    :: (if Py.falsy (job_text j) then [] else [Invoked (job_text j)]).

(** The loop over the documents of the walk, one after the other. *)
Fixpoint for_jobs (jobs : list job) (rows : table) : M table :=
  match jobs with
  | [] => ret rows
  | j :: jobs' =>
      rows' <- process_file llm json_loads Document (fst j) (snd j) rows ;;
      for_jobs jobs' rows'
  end.

(** What a run that goes through leaves in the trace: for every document
    its opening and its call of the model, then the table saved with its
    row in it, and only then the next document. *)
Fixpoint run_trace (rows : table) (jobs : list job) : list event :=
  match jobs with
  | [] => []
  | j :: jobs' =>
      (events_for j ++ Saved (rows ++ [row_for j])
         :: run_trace (rows ++ [row_for j]) jobs')%list
  end.

End Readings.

(** ** The handler of the script *)

(** C8 as the specification states it: after any failure of what the
    script guards, the results file holds the single blank row. *)
Definition blank_row_after_failure_claim : Prop :=
  forall (llm : string -> result string) (json_loads : string -> result value)
         (Document : string -> result (list string))
         (input_folder : list node) (w w1 : world) (e : exn),
    guarded_main llm json_loads Document input_folder w = (Raise e, w1) ->
    results_file (snd (script_main llm json_loads Document input_folder w))
    = Some [blank_row].

(** ** The reconciler *)

(** The order of [sorted] on strings. *)
Definition le_str (a b : string) : Prop := String.leb a b = true.

(** The files copied out of the candidates of the loop: those in front of
    the first one on which the copy raises. *)
Fixpoint copied_until_raise (copy2 : string -> result unit)
         (candidates : list string) : list string :=
  match candidates with
  | [] => []
  | file :: candidates' =>
      match copy2 file with
      | Ok _ => file :: copied_until_raise copy2 candidates'
      | Raise _ => []
      end
  end.


(* ================================================================== *)
(** * Runs on small inputs *)

Definition w0 : world := mk_world None [] [].

Definition reply_with_note : string :=
  json_text "Result: {'state': 'Goa'} (see {notes})".

Definition reply_in_prose : string :=
  json_text "Here is the data: {'state': ' Goa ', 'location': 'MG Road Extension'} Thanks.".

Definition reply_with_number : string :=
  json_text "{'state': 'Goa', 'location': 'Panaji', 'financial_year': 2021}".

Definition demo_folder : list node :=
  [File "a.docx"; File "notes.txt"; Dir "2023" [File "B.DOCX"; File "c.doc"]].

Definition demo_document (doc_path : string) : result (list string) :=
  if Py.endswith "a.docx" doc_path
  then Ok ["  Audit of the Forest Department  "; "   "; "Scope of Audit"]
  else Raise (OtherError "PackageNotFoundError").

Definition demo_llm (doc_text : string) : result string :=
  Ok (json_text "{'state': 'Goa', 'location': 'MG Road, Panaji'}").

Definition demo_row : row :=
  mk_row "a.docx" "Goa" "Panaji" "Unknown Department" "Unknown" "Unknown".

Definition demo_first : list job := [(MY_DOCS_FOLDER, "a.docx")].

Definition demo_rest : list job :=
  [(os_path_join MY_DOCS_FOLDER "2023", "B.DOCX")].

(** The world after the first document of the folder. *)
Definition demo_world : world :=
  snd (for_jobs demo_llm JSON.loads demo_document demo_first [] w0).

(** The results file is there, the first save goes through, the second
    one raises. *)
Definition faulty_world : world := mk_world (Some []) [] [false; true].

Definition crashed_world : world :=
  snd (guarded_main demo_llm JSON.loads demo_document demo_folder faulty_world).

(** A folder with its only document in a sub-directory. *)
Definition nested_folder : list node := [Dir "2023" [File "report.docx"]].

(** [shutil.copy2] in an input folder whose entries named in [dirs] are
    directories and whose other entries are files that can be copied: on
    a directory it raises an [OSError] ([PermissionError] on Windows,
    [IsADirectoryError] elsewhere). *)
Definition copy2_with_dirs (dirs : list string) (file : string)
  : result unit :=
  if Reconciler.mem file dirs then Raise (OtherError "OSError") else Ok tt.

(** An input folder with a directory whose name ends in .docx. *)
Definition listing_with_dir : list string := ["sub.docx"; "Z.docx"; "A.docx"].

(* ================================================================== *)
(** * The start of [main.py] and further readings *)

(** What the module body of [main.py] finds when it is loaded: how the
    set-up of the logging ends, the value of the environment variable,
    whether the input folder is there, and how the construction of the
    model client ends.  The set-up of the logging is the lines in front of
    the key check: [RotatingFileHandler(LOG_FILE, ...)] opens the log file
    and raises when its directory is missing; the time stamp of the first
    log record and [load_dotenv()] follow it.  Nothing catches an
    exception there. *)
Record startup : Type := mk_startup {
  RotatingFileHandler : result unit;
  getenv_GROQ_API_KEY : option string;
  docs_folder_exists : bool;
  ChatGroq : result unit
}.

(** [not GROQ_API_KEY]: no variable, or an empty one. *)
Definition no_api_key (s : startup) : bool :=
  match getenv_GROQ_API_KEY s with
  | None => true
  | Some key => Py.falsy key
  end.

(** The module body in front of the function definitions: the set-up of
    the logging, then the three checks, in their order.  The handler
    around the construction of the client raises again what it caught. *)
Definition module_init (s : startup) : M unit :=
  lift (RotatingFileHandler s) ;;;
  (if no_api_key s then raise (OtherError "ValueError")
   else if negb (docs_folder_exists s)
   then raise (OtherError "FileNotFoundError")
   else try_except any_Exception (lift (ChatGroq s)) (fun e => raise e)).

(** [python main.py]: the module body, then the guarded block. *)
Definition program (s : startup)
           (llm : string -> result string)
           (json_loads : string -> result value)
           (Document : string -> result (list string))
           (input_folder : list node) : M unit :=
  module_init s ;;;
  script_main llm json_loads Document input_folder.

(** A text without white space at either end. *)
Definition trimmed (s : string) : Prop := Py.strip s = s.

(** Five fields without white space at either end, and no comma in the
    location. *)
Definition tidy (md : metadata) : Prop :=
  let '(state, location, department, audit_year, financial_year) := md in
  trimmed state /\ trimmed location /\ trimmed department
  /\ trimmed audit_year /\ trimmed financial_year
  /\ Py.contains Py.comma location = false.

Definition reply_with_array : string := json_text "[{'state': 'Goa'}]".

(** No write of the results file is going to raise. *)
Definition fault_free (w : world) : Prop :=
  forall b, In b (faults w) -> b = false.

(** The documents of a tree, at any depth. *)
Fixpoint count_docx_node (n : node) : nat :=
  match n with
  | File name => if is_docx name then 1 else 0
  | Dir _ entries => list_sum (map count_docx_node entries)
  end.

Definition count_docx (entries : list node) : nat :=
  list_sum (map count_docx_node entries).

(** What the walk finds below a node: nothing below a file, which the
    directory it is in lists. *)
Definition found_below (n : node) : Prop :=
  forall parent,
    List.length (jobs_of (walk_node parent n))
    = match n with
      | File _ => 0
      | Dir _ entries => count_docx entries
      end.

(** The table [main_process] leaves when no write raises. *)
Definition expected_table
           (llm : string -> result string)
           (json_loads : string -> result value)
           (Document : string -> result (list string))
           (input_folder : list node) : table :=
  match filter is_docx (os_listdir input_folder) with
  | [] => [blank_row]
  | _ :: _ =>
      map (row_for llm json_loads Document)
          (jobs_of (os_walk MY_DOCS_FOLDER input_folder))
  end.


(** The second save and the write of the handler both raise. *)
Definition doubly_faulty_world : world :=
  mk_world (Some []) [] [false; true; true].


(** The results file is there. *)
Definition present (w : world) : Prop := results_file w <> None.

(** A row of sentinels for a file. *)
Definition sentinel_row (fname : string) : row :=
  mk_row fname "Unknown" "Unknown" "Unknown Department" "Unknown" "Unknown".

(** Does a match of the roadway pattern start somewhere in [s]? *)
Fixpoint has_match (prev_word : bool) (s : string) : bool :=
  match s with
  | EmptyString => false
  | String c r => match_here prev_word s || has_match (Py.is_word c) r
  end.

(** Is the first character of [s] a word character? *)
Definition starts_word (s : string) : bool :=
  match s with
  | EmptyString => false
  | String c _ => Py.is_word c
  end.

(** Whether the last character of [s] is a word character ([prev_word]
    for the empty text). *)
Fixpoint last_state (prev_word : bool) (s : string) : bool :=
  match s with
  | EmptyString => prev_word
  | String c r => last_state (Py.is_word c) r
  end.

(** The characters of the alphabet. *)
Definition all_chars : list ascii := map ascii_of_nat (seq 0 256).

(** A literal all of whose characters are matched by word characters
    only. *)
Fixpoint word_literal (lit : string) : bool :=
  match lit with
  | EmptyString => true
  | String p lit' =>
      forallb (fun c =>
                 implb (Py.lower_char c =? Py.lower_char p)%char (Py.is_word c))
              all_chars
      && word_literal lit'
  end.

(** The documents opened and the texts sent to the model, as a trace has
    them. *)
Definition opened_paths (tr : list event) : list string :=
  flat_map (fun e => match e with Opened p => [p] | _ => [] end) tr.

Definition invoked_texts (tr : list event) : list string :=
  flat_map (fun e => match e with Invoked t => [t] | _ => [] end) tr.

Definition job_path (j : job) : string := os_path_join (fst j) (snd j).

(* ================================================================== *)
(** * Properties *)

(** ** The definitions at work *)

Example clean_location_comma :
  clean_location "123 Main Road, Springfield" = "Springfield".
Proof. reflexivity. Qed.

Example clean_location_roadway :
  clean_location "MG Road Extension" = "MG".
Proof. reflexivity. Qed.

Example clean_location_lines :
  clean_location ("Main Road" ++ lf ++ "Pune") = "Pune".
Proof. reflexivity. Qed.

Example search_braces_greedy :
  search_braces "a {b} c {d} e" = Some "{b} c {d}".
Proof. reflexivity. Qed.

Example loads_object :
  JSON.loads (json_text "{'state': 'Goa', 'n': [1, -2.5e3, null, true], 'state': 'Kerala'}")
  = Ok (JObject [("state", JString "Goa");
                 ("n", JArray [JNumber "1"; JNumber "-2.5e3"; JNull; JBool true]);
                 ("state", JString "Kerala")]).
Proof. reflexivity. Qed.

Example loads_extra_data :
  JSON.loads (json_text "{'state': 'Goa'} (see {notes})") = Raise JSONDecodeError.
Proof. reflexivity. Qed.

Example loads_escape :
  JSON.loads (json_text "'a\u0041\n'") = Ok (JString ("aA" ++ lf)).
Proof. reflexivity. Qed.

Example splitext_docx :
  Reconciler.splitext "report.v2.docx" = ("report.v2", ".docx").
Proof. reflexivity. Qed.

Example splitext_leading_dot :
  Reconciler.splitext ".docx" = (".docx", EmptyString).
Proof. reflexivity. Qed.

Example reconcile_ABC_BCD :
  Reconciler.comparison_output
    ["A.docx"; "B.docx"; "C.docx"; "notes.txt"; "E.DOCX"]
    ["B.docx"; "C.docx"; "D.docx"]
  = Reconciler.mk_workbook ["A"] ["D"]
  /\ Reconciler.copied_to_unprocessed
       ["A.docx"; "B.docx"; "C.docx"; "notes.txt"; "E.DOCX"]
       ["B.docx"; "C.docx"; "D.docx"] (copy2_with_dirs [])
     = ["A.docx"].
Proof. split; reflexivity. Qed.

Example reconcile_with_directory :
  Reconciler.comparison_output listing_with_dir []
  = Reconciler.mk_workbook ["A"; "Z"; "sub"] []
  /\ Reconciler.copy_loop listing_with_dir [] (copy2_with_dirs ["sub.docx"])
                          (Reconciler.input_files listing_with_dir)
     = ([], Raise (OtherError "OSError"))
  /\ Reconciler.copy_loop ["Z.docx"; "sub.docx"; "A.docx"] []
                          (copy2_with_dirs ["sub.docx"])
                          (Reconciler.input_files
                             ["Z.docx"; "sub.docx"; "A.docx"])
     = (["Z.docx"], Raise (OtherError "OSError")).
Proof. repeat split; reflexivity. Qed.

(** ** Strings *)

Lemma split_not_nil (sep : ascii) (s : string) : Py.split sep s <> [].
Proof.
  destruct s as [|c r]; simpl; [discriminate|].
  destruct (c =? sep)%char; [discriminate|].
  destruct (Py.split sep r); discriminate.
Qed.

Lemma split_cons (sep c : ascii) (r : string) :
  Py.split sep (String c r) =
  if (c =? sep)%char then EmptyString :: Py.split sep r
  else match Py.split sep r with
       | [] => [String c EmptyString]
       | w :: ws => String c w :: ws
       end.
Proof. reflexivity. Qed.

Lemma split_no_sep (sep : ascii) (s : string) :
  Py.contains sep s = false -> Py.split sep s = [s].
Proof.
  induction s as [|c r IH]; simpl; intros H; [reflexivity|].
  apply orb_false_iff in H. destruct H as [Hc Hr].
  rewrite Hc, (IH Hr). reflexivity.
Qed.

Lemma join_cons_char (sep : string) (c : ascii) (w : string) (ws : list string) :
  Py.join sep (String c w :: ws) = String c (Py.join sep (w :: ws)).
Proof. unfold Py.join. destruct ws; reflexivity. Qed.

Lemma join_empty_head (sep : string) (w : string) (ws : list string) :
  Py.join sep (EmptyString :: w :: ws) = sep ++ Py.join sep (w :: ws).
Proof. reflexivity. Qed.

Lemma split_two_fields (sep : ascii) (s : string) :
  Py.contains sep s = true ->
  exists w x ws, Py.split sep s = w :: x :: ws.
Proof.
  induction s as [|c r IH]; simpl; intros H; [discriminate|].
  destruct (c =? sep)%char eqn:Hc.
  - pose proof (split_not_nil sep r) as Hn.
    destruct (Py.split sep r) as [|x ws]; [congruence|]. eauto.
  - simpl in H. destruct (IH H) as (w & x & ws & E). rewrite E. eauto.
Qed.

Lemma last_split (sep : ascii) (s : string) :
  Py.last_item (Py.split sep s) EmptyString = after_last sep s.
Proof.
  unfold Py.last_item.
  induction s as [|c r IH]; [reflexivity|].
  rewrite split_cons. simpl after_last.
  destruct (Py.contains sep r) eqn:Hr.
  - rewrite <- IH. destruct (split_two_fields _ _ Hr) as (w & x & ws & E).
    rewrite E. destruct (c =? sep)%char; reflexivity.
  - rewrite (split_no_sep _ _ Hr).
    destruct (c =? sep)%char; reflexivity.
Qed.

(** ** Location cleanup *)

Lemma hd_split_newline (s : string) :
  hd EmptyString (Py.split Py.newline s) = first_line s.
Proof.
  induction s as [|c r IH]; [reflexivity|].
  rewrite split_cons. simpl first_line.
  destruct (c =? Py.newline)%char; [reflexivity|].
  destruct (Py.split Py.newline r); simpl in *; congruence.
Qed.

Lemma match_literal_first_line (lit : string) :
  no_newline_literal lit = true ->
  forall pw s,
    match_literal lit pw (first_line s) =
    match match_literal lit pw s with
    | Some (w, r) => Some (w, first_line r)
    | None => None
    end.
Proof.
  induction lit as [|p lit IH]; intros Hlit pw s; [reflexivity|].
  simpl in Hlit. apply andb_true_iff in Hlit. destruct Hlit as [Hp Hlit].
  destruct s as [|c r]; [reflexivity|].
  simpl first_line. destruct (c =? Py.newline)%char eqn:Hc.
  - apply Ascii.eqb_eq in Hc. subst c. simpl.
    apply negb_true_iff in Hp. rewrite Hp. reflexivity.
  - simpl. destruct (Py.lower_char c =? Py.lower_char p)%char; [|reflexivity].
    apply IH; assumption.
Qed.

Lemma word_boundary_first_line (w : bool) (s : string) :
  word_boundary w (first_line s) = word_boundary w s.
Proof.
  destruct s as [|c r]; [reflexivity|].
  simpl first_line. destruct (c =? Py.newline)%char eqn:Hc; [|reflexivity].
  apply Ascii.eqb_eq in Hc. subst c. reflexivity.
Qed.

Lemma match_keyword_first_line (pw : bool) (s : string) :
  match_keyword pw (first_line s) = match_keyword pw s.
Proof.
  unfold match_keyword.
  assert (Hk : forallb no_newline_literal roadway_keywords = true)
    by reflexivity.
  induction roadway_keywords as [|kw kws IH]; [reflexivity|].
  simpl in Hk. apply andb_true_iff in Hk. destruct Hk as [Hkw Hkws].
  cbn [existsb]. rewrite (IH Hkws).
  rewrite (match_literal_first_line kw Hkw).
  destruct (match_literal kw pw s) as [[w r]|]; [|reflexivity].
  rewrite word_boundary_first_line. reflexivity.
Qed.

Lemma match_here_first_line (pw : bool) (s : string) :
  match_here pw (first_line s) = match_here pw s.
Proof.
  unfold match_here.
  rewrite word_boundary_first_line, match_keyword_first_line. reflexivity.
Qed.

Lemma match_here_newline (pw : bool) (r : string) :
  match_here pw (String Py.newline r) = false.
Proof. destruct pw; reflexivity. Qed.

(** The substitution works line by line: in a line it is in the middle of
    a match, nothing is kept; in every other line the text in front of the
    first roadway word is. *)
Lemma re_sub_from_lines (s : string) :
  forall pw in_match,
    re_sub_from pw in_match s =
    match Py.split Py.newline s with
    | [] => EmptyString
    | l :: ls =>
        Py.join lf ((if in_match then EmptyString else cut_at_roadway pw l)
                      :: map (cut_at_roadway false) ls)
    end.
Proof.
  induction s as [|c r IH]; intros pw in_match.
  - destruct in_match; reflexivity.
  - rewrite split_cons. simpl re_sub_from.
    destruct (c =? Py.newline)%char eqn:Hc.
    + apply Ascii.eqb_eq in Hc. subst c.
      rewrite andb_false_r, match_here_newline.
      rewrite (IH (Py.is_word Py.newline) false).
      pose proof (split_not_nil Py.newline r) as Hn.
      destruct (Py.split Py.newline r) as [|l ls]; [congruence|].
      simpl map. destruct in_match; reflexivity.
    + rewrite andb_true_r.
      pose proof (hd_split_newline r) as Hh.
      pose proof (split_not_nil Py.newline r) as Hn.
      destruct in_match.
      * rewrite (IH (Py.is_word c) true).
        destruct (Py.split Py.newline r) as [|l ls]; [congruence|reflexivity].
      * simpl cut_at_roadway.
        destruct (Py.split Py.newline r) as [|l ls] eqn:E; [congruence|].
        simpl in Hh. subst l.
        assert (Hm : match_here pw (String c (first_line r))
                     = match_here pw (String c r)).
        { rewrite <- (match_here_first_line pw (String c r)).
          simpl first_line. rewrite Hc. reflexivity. }
        simpl cut_at_roadway. rewrite Hm.
        destruct (match_here pw (String c r)).
        -- rewrite (IH (Py.is_word c) true). reflexivity.
        -- rewrite (IH (Py.is_word c) false).
           rewrite join_cons_char. reflexivity.
Qed.

Lemma re_sub_roadway_lines (s : string) :
  re_sub_roadway s =
  Py.join lf (map (cut_at_roadway false) (Py.split Py.newline s)).
Proof.
  unfold re_sub_roadway. rewrite re_sub_from_lines.
  pose proof (split_not_nil Py.newline s).
  destruct (Py.split Py.newline s); [congruence|reflexivity].
Qed.

(** C3, as the specification states it, fails on a location of two lines:
    the pattern stops at the line break, and the second line stays. *)
Lemma clean_location_claim_counterexample :
  clean_location ("Main Road" ++ lf ++ "Pune") = "Pune"
  /\ claimed_clean_location ("Main Road" ++ lf ++ "Pune") = EmptyString
  /\ clean_location ("Main Road" ++ lf ++ "Pune")
     <> claimed_clean_location ("Main Road" ++ lf ++ "Pune").
Proof. repeat split; try reflexivity. vm_compute. discriminate. Qed.

(** C3 (amended): with a comma, the cleanup returns the text behind the
    last comma, trimmed; without one it removes, in every line, the first
    roadway word standing as a whole word (in any case) together with the
    rest of that line, and trims the result.  For a location of a single
    line that is the claim as the specification states it, and the two
    examples of the specification come out as given. *)
Theorem clean_location_by_line (location : string) :
  clean_location location =
    (if Py.contains Py.comma location
     then Py.strip (after_last Py.comma location)
     else Py.strip (Py.join lf (map (cut_at_roadway false)
                                    (Py.split Py.newline location))))
  /\ (Py.contains Py.newline location = false ->
      clean_location location = claimed_clean_location location)
  /\ clean_location "123 Main Road, Springfield" = "Springfield"
  /\ clean_location "MG Road Extension" = "MG".
Proof.
  assert (E : clean_location location =
              if Py.contains Py.comma location
              then Py.strip (after_last Py.comma location)
              else Py.strip (Py.join lf (map (cut_at_roadway false)
                                 (Py.split Py.newline location)))).
  { unfold clean_location. destruct location as [|c r]; [reflexivity|].
    cbn [Py.falsy]. rewrite last_split, re_sub_roadway_lines. reflexivity. }
  split; [exact E|]. split; [|split; reflexivity].
  intros Hnl. rewrite E. unfold claimed_clean_location.
  rewrite (split_no_sep _ _ Hnl). reflexivity.
Qed.

Lemma clean_location_by_line_witness :
  Py.contains Py.newline "MG Road Extension" = false
  /\ clean_location "MG Road Extension"
     = claimed_clean_location "MG Road Extension".
Proof.
  split; [reflexivity|].
  exact (proj1 (proj2 (clean_location_by_line "MG Road Extension")) eq_refl).
Defined.

(** ** Metadata inference *)

Lemma read_fields_object (members : list (string * value)) :
  read_fields (JObject members) =
  if all_text members then Ok (fields_of members) else Raise AttributeError.
Proof.
  unfold read_fields, all_text, fields_of, field_or, get_strip, five_keys.
  cbn [forallb rbind].
  repeat match goal with
         | |- context [dict_lookup ?k members] =>
             destruct (dict_lookup k members) as [[]|];
             cbn [rbind is_str andb]; try reflexivity
         end.
Qed.

Lemma read_fields_spec (v : value) :
  read_fields v = Ok (metadata_of_value v)
  \/ (read_fields v = Raise AttributeError
      /\ metadata_of_value v = default_metadata).
Proof.
  destruct v; try (right; split; reflexivity).
  rewrite read_fields_object. simpl metadata_of_value.
  destruct (all_text members); [left|right; split]; reflexivity.
Qed.

Lemma all_text_false (members : list (string * value)) (key : string) (v : value) :
  In key five_keys -> dict_lookup key members = Some v -> is_str v = false ->
  all_text members = false.
Proof.
  intros Hin Hl Hv. unfold all_text.
  destruct (forallb _ five_keys) eqn:E; [|reflexivity].
  rewrite forallb_forall in E. specialize (E key Hin).
  rewrite Hl in E. congruence.
Qed.

Lemma append_assoc (a b c : string) : (a ++ b) ++ c = a ++ (b ++ c).
Proof. induction a as [|x a IH]; simpl; [reflexivity|]. now rewrite IH. Qed.

Lemma append_nil_r (a : string) : a ++ EmptyString = a.
Proof. induction a as [|x a IH]; simpl; [reflexivity|]. now rewrite IH. Qed.

Lemma contains_append (c : ascii) (a b : string) :
  Py.contains c (a ++ b) = Py.contains c a || Py.contains c b.
Proof.
  induction a as [|x a IH]; simpl; [reflexivity|].
  rewrite IH. apply orb_assoc.
Qed.

Lemma contains_here (c : ascii) (a b : string) :
  Py.contains c (a ++ String c b) = true.
Proof.
  rewrite contains_append. simpl. rewrite Ascii.eqb_refl.
  apply orb_true_r.
Qed.

Lemma greedy_none (s : string) :
  greedy_to_rbrace s = None <-> Py.contains rbrace s = false.
Proof.
  induction s as [|c r IH]; simpl; [tauto|].
  destruct (greedy_to_rbrace r).
  - split; [discriminate|]. intros H. apply orb_false_iff in H.
    destruct H as [_ H]. apply IH in H. discriminate.
  - destruct (c =? rbrace)%char; simpl.
    + split; discriminate.
    + split; [intros _; now apply IH|reflexivity].
Qed.

Lemma greedy_append (x post : string) :
  Py.contains rbrace post = false ->
  greedy_to_rbrace (x ++ String rbrace post)
  = Some (x ++ String rbrace EmptyString).
Proof.
  intros Hp. induction x as [|d x IH]; simpl.
  - apply greedy_none in Hp. rewrite Hp. reflexivity.
  - rewrite IH. reflexivity.
Qed.

Lemma greedy_some (s m : string) :
  greedy_to_rbrace s = Some m ->
  exists x post, m = x ++ String rbrace EmptyString
                 /\ s = m ++ post /\ Py.contains rbrace post = false.
Proof.
  revert m. induction s as [|c r IH]; simpl; intros m H; [discriminate|].
  destruct (greedy_to_rbrace r) as [m'|] eqn:E.
  - inversion H; subst m. destruct (IH m' eq_refl) as (x & post & -> & Hr & Hp).
    exists (String c x), post. simpl. rewrite Hr at 1. auto.
  - destruct (c =? rbrace)%char eqn:Hc; [|discriminate].
    inversion H; subst m. apply Ascii.eqb_eq in Hc. subst c.
    exists EmptyString, r. apply greedy_none in E. auto.
Qed.

(** The text [re.search] finds is the stretch from the first opening
    brace to the last closing brace of the subject. *)
Lemma search_braces_found (s group : string) :
  search_braces s = Some group <->
  exists pre mid post,
    s = pre ++ group ++ post
    /\ group = String lbrace (mid ++ String rbrace EmptyString)
    /\ Py.contains lbrace pre = false
    /\ Py.contains rbrace post = false.
Proof.
  split.
  - revert group. induction s as [|c r IH]; simpl; intros g H; [discriminate|].
    destruct (c =? lbrace)%char eqn:Hc.
    + destruct (greedy_to_rbrace r) as [m|] eqn:E.
      * inversion H; subst g. apply Ascii.eqb_eq in Hc. subst c.
        destruct (greedy_some _ _ E) as (x & post & -> & Hr & Hp).
        exists EmptyString, x, post. simpl. rewrite Hr at 1. auto.
      * apply greedy_none in E. exfalso.
        destruct (IH _ H) as (pre & mid & post & -> & -> & _ & _).
        replace (pre ++ String lbrace (mid ++ String rbrace EmptyString) ++ post)
          with ((pre ++ String lbrace mid) ++ String rbrace post) in E
          by (rewrite !append_assoc; simpl; rewrite append_assoc; reflexivity).
        rewrite contains_here in E. discriminate.
    + destruct (IH _ H) as (pre & mid & post & -> & -> & Hpre & Hpost).
      exists (String c pre), mid, post. simpl. rewrite Hc, Hpre. auto.
  - intros (pre & mid & post & -> & -> & Hpre & Hpost).
    induction pre as [|c pre IH]; simpl.
    + rewrite append_assoc. cbn [append].
      rewrite (greedy_append _ _ Hpost). reflexivity.
    + simpl in Hpre. apply orb_false_iff in Hpre. destruct Hpre as [Hc Hpre].
      rewrite Hc. apply IH. exact Hpre.
Qed.

Lemma lstrip_append (pre : string) (c : ascii) (r : string) :
  Py.isspace c = false ->
  exists pre', Py.lstrip (pre ++ String c r) = pre' ++ String c r
               /\ forall d, Py.contains d pre' = true -> Py.contains d pre = true.
Proof.
  intros Hc. induction pre as [|x pre IH]; simpl.
  - rewrite Hc. exists EmptyString. split; [reflexivity|]. intros d H. exact H.
  - destruct (Py.isspace x).
    + destruct IH as (pre' & E & Hsub). exists pre'. split; [exact E|].
      intros d H. rewrite (Hsub d H). apply orb_true_r.
    + exists (String x pre). split; [reflexivity|]. intros d H. exact H.
Qed.

Lemma rstrip_contains (s : string) (d : ascii) :
  Py.contains d (Py.rstrip s) = true -> Py.contains d s = true.
Proof.
  induction s as [|c r IH]; simpl; [auto|].
  destruct (Py.rstrip r) as [|y t] eqn:E.
  - destruct (Py.isspace c); simpl; [discriminate|].
    rewrite orb_false_r. intros ->. reflexivity.
  - simpl. intros H. apply orb_true_iff in H. destruct H as [H|H].
    + rewrite H. reflexivity.
    + simpl in IH. rewrite (IH H). apply orb_true_r.
Qed.

Lemma rstrip_append (a : string) (c : ascii) (post : string) :
  Py.isspace c = false ->
  Py.rstrip (a ++ String c post) = a ++ String c (Py.rstrip post).
Proof.
  intros Hc. induction a as [|x a IH]; simpl.
  - destruct (Py.rstrip post); [rewrite Hc|]; reflexivity.
  - rewrite IH. destruct (a ++ String c (Py.rstrip post)) eqn:E; [|reflexivity].
    destruct a; discriminate.
Qed.

(** Trimming a reply leaves an object embedded in it where it is. *)
Lemma strip_embedded (pre mid post : string) :
  exists pre' post',
    Py.strip (pre ++ String lbrace (mid ++ String rbrace EmptyString) ++ post)
    = pre' ++ String lbrace (mid ++ String rbrace EmptyString) ++ post'
    /\ (Py.contains lbrace pre = false -> Py.contains lbrace pre' = false)
    /\ (Py.contains rbrace post = false -> Py.contains rbrace post' = false).
Proof.
  unfold Py.strip. simpl.
  destruct (lstrip_append pre lbrace ((mid ++ String rbrace EmptyString) ++ post)
              eq_refl) as (pre' & E & Hsub).
  rewrite E. exists pre', (Py.rstrip post).
  split; [|split].
  - rewrite append_assoc. simpl.
    replace (pre' ++ String lbrace (mid ++ String rbrace post))
      with ((pre' ++ String lbrace mid) ++ String rbrace post)
      by (rewrite append_assoc; reflexivity).
    rewrite rstrip_append by reflexivity.
    rewrite append_assoc. simpl. rewrite append_assoc. reflexivity.
  - intros H. destruct (Py.contains lbrace pre') eqn:C; [|reflexivity].
    rewrite (Hsub _ C) in H. discriminate.
  - intros H. destruct (Py.contains rbrace (Py.rstrip post)) eqn:C; [|reflexivity].
    rewrite (rstrip_contains _ _ C) in H. discriminate.
Qed.

Section Inference.

Variable llm : string -> result string.
Variable json_loads : string -> result value.

Lemma analyze_invokes_once (doc_text : string) (w : world) :
  Py.falsy doc_text = false ->
  analyze_ir_content llm json_loads doc_text w =
  (Ok (match llm doc_text with
       | Ok reply => outcome (parse_content json_loads (Py.strip reply))
       | Raise _ => default_metadata
       end),
   record (Invoked doc_text) w).
Proof.
  intros Hne. unfold analyze_ir_content. rewrite Hne.
  unfold try_except, bind, llm_invoke, lift, ret.
  destruct (llm doc_text) as [reply|e]; [|reflexivity].
  destruct (parse_content json_loads (Py.strip reply)); reflexivity.
Qed.

Lemma parse_content_policy (content : string) :
  outcome (parse_content json_loads content) = parsing_policy json_loads content.
Proof.
  unfold parse_content, parsing_policy.
  destruct (json_loads content) as [v|e]; cbn [rbind rtry].
  - destruct (read_fields_spec v) as [E|[E D]]; rewrite E; cbn [rtry].
    + reflexivity.
    + cbn. symmetry. exact D.
  - destruct e; cbn [is_JSONDecodeError outcome]; try reflexivity.
    destruct (search_braces content) as [group|]; [|reflexivity].
    destruct (json_loads group) as [v|e]; cbn [rbind outcome]; [|reflexivity].
    destruct (read_fields_spec v) as [E|[E D]]; rewrite E; cbn [outcome].
    + reflexivity.
    + symmetry. exact D.
Qed.

(** C4: on an empty text the inference returns the five sentinels and
    leaves the world as it found it: the model is not called. *)
Theorem analyze_empty_text (w : world) :
  analyze_ir_content llm json_loads EmptyString w = (Ok default_metadata, w)
  /\ default_metadata
     = ("Unknown", "Unknown", "Unknown Department", "Unknown", "Unknown")
  /\ trace (snd (analyze_ir_content llm json_loads EmptyString w)) = trace w.
Proof. repeat split. Qed.

(** C5: the inference always returns a five-tuple and never raises; it
    calls the model once at most; when the call raises, and on every
    failure of the parse that is left, the tuple is the sentinels. *)
Theorem analyze_never_raises (doc_text : string) (w : world) :
  exists md,
    analyze_ir_content llm json_loads doc_text w
    = (Ok md, if Py.falsy doc_text then w else record (Invoked doc_text) w)
    /\ (forall e, llm doc_text = Raise e -> md = default_metadata)
    /\ (forall reply e,
           llm doc_text = Ok reply ->
           parse_content json_loads (Py.strip reply) = Raise e ->
           md = default_metadata)
    /\ (forall reply,
           llm doc_text = Ok reply ->
           json_loads (Py.strip reply) = Raise JSONDecodeError ->
           search_braces (Py.strip reply) = None ->
           md = default_metadata)
    /\ (forall reply group e,
           llm doc_text = Ok reply ->
           json_loads (Py.strip reply) = Raise JSONDecodeError ->
           search_braces (Py.strip reply) = Some group ->
           json_loads group = Raise e ->
           md = default_metadata).
Proof.
  destruct (Py.falsy doc_text) eqn:Hf.
  - exists default_metadata. unfold analyze_ir_content. rewrite Hf.
    repeat split; reflexivity.
  - eexists. split; [apply analyze_invokes_once; exact Hf|].
    repeat split.
    + intros e ->. reflexivity.
    + intros reply e -> ->. reflexivity.
    + intros reply -> Hl Hs. unfold parse_content. rewrite Hl, Hs. reflexivity.
    + intros reply group e -> Hl Hs Hg. unfold parse_content.
      rewrite Hl, Hs, Hg. reflexivity.
Qed.

(** C1 (amended): the inference parses the trimmed reply strictly; when
    that fails it parses the stretch from the first opening brace to the
    last closing brace of the reply; a member that is missing gives its
    sentinel, and every failure that is left gives the five sentinels.  An
    object embedded in prose that has no opening brace in front of it and
    no closing brace behind it is the stretch that is parsed. *)
Theorem analyze_follows_policy (doc_text reply : string) (w : world) :
  Py.falsy doc_text = false ->
  llm doc_text = Ok reply ->
  analyze_ir_content llm json_loads doc_text w
  = (Ok (parsing_policy json_loads (Py.strip reply)), record (Invoked doc_text) w)
  /\ (forall group,
         search_braces (Py.strip reply) = Some group <->
         exists pre mid post,
           Py.strip reply = pre ++ group ++ post
           /\ group = String lbrace (mid ++ String rbrace EmptyString)
           /\ Py.contains lbrace pre = false
           /\ Py.contains rbrace post = false)
  /\ (forall pre mid post v,
         reply = pre ++ String lbrace (mid ++ String rbrace EmptyString) ++ post ->
         Py.contains lbrace pre = false ->
         Py.contains rbrace post = false ->
         json_loads (Py.strip reply) = Raise JSONDecodeError ->
         json_loads (String lbrace (mid ++ String rbrace EmptyString)) = Ok v ->
         analyze_ir_content llm json_loads doc_text w
         = (Ok (metadata_of_value v), record (Invoked doc_text) w))
  /\ (forall members key post sentinel,
         dict_lookup key members = None ->
         field_or members key post sentinel = sentinel).
Proof.
  intros Hne Hllm.
  assert (E : analyze_ir_content llm json_loads doc_text w
              = (Ok (parsing_policy json_loads (Py.strip reply)),
                 record (Invoked doc_text) w)).
  { rewrite (analyze_invokes_once _ _ Hne), Hllm, parse_content_policy.
    reflexivity. }
  split; [exact E|]. split; [intros group; apply search_braces_found|].
  split; [|intros members key post sentinel Hk; unfold field_or;
           rewrite Hk; reflexivity].
  intros pre mid post v Hr Hpre Hpost Hstrict Hobj.
  rewrite E. unfold parsing_policy. rewrite Hstrict.
  destruct (strip_embedded pre mid post) as (pre' & post' & Hs & Hp1 & Hp2).
  rewrite <- Hr in Hs.
  assert (Hfound : search_braces (Py.strip reply)
                   = Some (String lbrace (mid ++ String rbrace EmptyString))).
  { apply search_braces_found. exists pre', mid, post'. auto. }
  rewrite Hfound, Hobj. reflexivity.
Qed.

(** C10: when the reply parses as an object in which one of the five
    members is there and is not a string, the inference returns the five
    sentinels, whatever the other members are. *)
Theorem non_string_member_gives_sentinels
        (doc_text reply : string) (w : world)
        (members : list (string * value)) (key : string) (v : value) :
  Py.falsy doc_text = false ->
  llm doc_text = Ok reply ->
  parses_as_object json_loads (Py.strip reply) members ->
  In key five_keys ->
  dict_lookup key members = Some v ->
  is_str v = false ->
  analyze_ir_content llm json_loads doc_text w
  = (Ok default_metadata, record (Invoked doc_text) w).
Proof.
  intros Hne Hllm Hp Hin Hl Hv.
  rewrite (analyze_invokes_once _ _ Hne), Hllm, parse_content_policy.
  unfold parsing_policy.
  pose proof (all_text_false _ _ _ Hin Hl Hv) as Hf.
  destruct Hp as [Hs|(Hs & group & Hg & Ho)].
  - rewrite Hs. unfold metadata_of_value. rewrite Hf. reflexivity.
  - rewrite Hs, Hg, Ho. unfold metadata_of_value. rewrite Hf. reflexivity.
Qed.

End Inference.

(** ** A reply with prose around the object *)

(** C1 fails as stated: with a closing brace in the prose behind the
    object, the search takes in the prose up to that brace, the second
    parse fails too, and the state the object names is lost. *)
Lemma embedded_object_claim_fails :
  JSON.loads (json_text "{'state': 'Goa'}")
  = Ok (JObject [("state", JString "Goa")])
  /\ search_braces reply_with_note
     = Some (json_text "{'state': 'Goa'} (see {notes}")
  /\ analyze_ir_content (fun _ => Ok reply_with_note) JSON.loads "report" w0
     = (Ok default_metadata, record (Invoked "report") w0)
  /\ ~ embedded_object_claim.
Proof.
  repeat (split; [reflexivity|]).
  intros H.
  specialize (H (fun _ => Ok reply_with_note) "report"
                "Result: " (json_text "{'state': 'Goa'}") " (see {notes})"
                [("state", JString "Goa")] w0
                eq_refl eq_refl eq_refl eq_refl).
  vm_compute in H. discriminate.
Qed.

Lemma analyze_follows_policy_witness :
  Py.falsy "report" = false
  /\ (fun _ : string => Ok reply_in_prose) "report" = Ok reply_in_prose
  /\ analyze_ir_content (fun _ => Ok reply_in_prose) JSON.loads "report" w0
     = (Ok ("Goa", "MG", "Unknown Department", "Unknown", "Unknown"),
        record (Invoked "report") w0).
Proof.
  split; [reflexivity|]. split; [reflexivity|].
  exact (proj1 (analyze_follows_policy (fun _ => Ok reply_in_prose) JSON.loads
                  "report" reply_in_prose w0 eq_refl eq_refl)).
Defined.

Lemma non_string_member_gives_sentinels_witness :
  Py.falsy "report" = false
  /\ (fun _ : string => Ok reply_with_number) "report" = Ok reply_with_number
  /\ parses_as_object JSON.loads (Py.strip reply_with_number)
       [("state", JString "Goa"); ("location", JString "Panaji");
        ("financial_year", JNumber "2021")]
  /\ In "financial_year" five_keys
  /\ dict_lookup "financial_year"
       [("state", JString "Goa"); ("location", JString "Panaji");
        ("financial_year", JNumber "2021")] = Some (JNumber "2021")
  /\ is_str (JNumber "2021") = false
  /\ analyze_ir_content (fun _ => Ok reply_with_number) JSON.loads "report" w0
     = (Ok default_metadata, record (Invoked "report") w0).
Proof.
  assert (Hp : parses_as_object JSON.loads (Py.strip reply_with_number)
                 [("state", JString "Goa"); ("location", JString "Panaji");
                  ("financial_year", JNumber "2021")])
    by (left; reflexivity).
  assert (Hin : In "financial_year" five_keys) by (simpl; tauto).
  repeat (split; [first [reflexivity | assumption]|]).
  exact (non_string_member_gives_sentinels (fun _ => Ok reply_with_number)
           JSON.loads "report" reply_with_number w0 _ "financial_year" _
           eq_refl eq_refl Hp Hin eq_refl eq_refl).
Defined.

(** ** Text extraction *)

Lemma length_append (a b : string) :
  String.length (a ++ b) = String.length a + String.length b.
Proof. induction a as [|c a IH]; simpl; [reflexivity|]. now rewrite IH. Qed.

Lemma length_slice_to (n : nat) (s : string) :
  String.length (Py.slice_to n s) = Nat.min n (String.length s).
Proof.
  unfold Py.slice_to. revert s.
  induction n as [|n IH]; intros [|c r]; simpl; try reflexivity.
  now rewrite IH.
Qed.

Lemma kept_lines (paragraphs : list string) :
  map Py.strip
      (filter (fun text => negb (Py.falsy (Py.strip text))) paragraphs)
  = trimmed_nonempty paragraphs.
Proof.
  unfold trimmed_nonempty.
  induction paragraphs as [|p ps IH]; simpl; [reflexivity|].
  destruct (Py.falsy (Py.strip p)); simpl; now rewrite IH.
Qed.

Section Extraction.

Variable Document : string -> result (list string).

Lemma extract_text_eq (doc_path : string) (w : world) :
  extract_text_from_docx Document doc_path w
  = (Ok (text_of Document doc_path), record (Opened doc_path) w).
Proof.
  unfold extract_text_from_docx, text_of, try_except, bind, open_document, ret.
  destruct (Document doc_path) as [paragraphs|e]; [|reflexivity].
  rewrite kept_lines.
  destruct (MAX_TEXT_LENGTH <? _)%nat; reflexivity.
Qed.

(** C6: the extraction returns the trimmed, non-empty paragraph texts
    joined by line breaks when that is at most 5000 characters long, its
    first 5000 characters when it is longer, and the empty text when the
    document cannot be read; it never raises and never returns more than
    5000 characters. *)
Theorem extract_text_bounded (doc_path : string) (w : world) :
  exists text,
    extract_text_from_docx Document doc_path w
    = (Ok text, record (Opened doc_path) w)
    /\ String.length text <= 5000
    /\ match Document doc_path with
       | Ok paragraphs =>
           let joined := Py.join lf (trimmed_nonempty paragraphs) in
           (String.length joined <= 5000 -> text = joined)
           /\ (5000 < String.length joined ->
               text = Py.slice_to 5000 joined)
           /\ (text <> joined <-> 5000 < String.length joined)
       | Raise _ => text = EmptyString
       end.
Proof.
  exists (text_of Document doc_path). split; [apply extract_text_eq|].
  unfold text_of. change MAX_TEXT_LENGTH with 5000.
  destruct (Document doc_path) as [paragraphs|e].
  - cbv zeta. set (joined := Py.join lf (trimmed_nonempty paragraphs)).
    destruct (5000 <? String.length joined)%nat eqn:Hlt.
    + apply Nat.ltb_lt in Hlt.
      assert (Hlen : String.length (Py.slice_to 5000 joined) = 5000).
      { rewrite length_slice_to. lia. }
      split; [lia|]. split; [intros; lia|]. split; [reflexivity|].
      split; [intros _; exact Hlt|].
      intros _ E. rewrite E in Hlen. lia.
    + apply Nat.ltb_ge in Hlt.
      split; [exact Hlt|]. split; [reflexivity|]. split; [intros; lia|].
      split; [intros H; now elim H|intros; lia].
  - split; [simpl; lia|reflexivity].
Qed.

End Extraction.

(** ** The batch driver *)

Section Driver.

Local Open Scope list_scope.

Variable llm : string -> result string.
Variable json_loads : string -> result value.
Variable Document : string -> result (list string).
Variable input_folder : list node.

Lemma analyze_eq (text : string) (w : world) :
  analyze_ir_content llm json_loads text w
  = (Ok (metadata_for llm json_loads text),
     if Py.falsy text then w else record (Invoked text) w).
Proof.
  unfold metadata_for. destruct (Py.falsy text) eqn:Hf.
  - unfold analyze_ir_content. rewrite Hf. reflexivity.
  - apply analyze_invokes_once. exact Hf.
Qed.

Lemma process_file_eq (j : job) (rows : table) (w : world) :
  process_file llm json_loads Document (fst j) (snd j) rows w
  = (to_excel (rows ++ [row_for llm json_loads Document j]) ;;;
     ret (rows ++ [row_for llm json_loads Document j]))
      (add_events (events_for Document j) w).
Proof.
  unfold process_file.
  unfold bind at 1. rewrite extract_text_eq.
  unfold bind at 1. rewrite analyze_eq.
  unfold row_for, events_for, job_text.
  set (text := text_of Document (os_path_join (fst j) (snd j))).
  assert (Hw : (if Py.falsy text
                then record (Opened (os_path_join (fst j) (snd j))) w
                else record (Invoked text)
                       (record (Opened (os_path_join (fst j) (snd j))) w))
               = add_events
                   (Opened (os_path_join (fst j) (snd j))
                      :: (if Py.falsy text then [] else [Invoked text])) w).
  { unfold add_events, record. destruct (Py.falsy text); simpl.
    - reflexivity.
    - rewrite <- app_assoc. reflexivity. }
  rewrite Hw.
  destruct (metadata_for llm json_loads text) as [[[[a b] c] d] e]. reflexivity.
Qed.

Lemma for_jobs_app (pre post : list job) (rows : table) (w : world) :
  for_jobs llm json_loads Document (pre ++ post) rows w
  = (rows' <- for_jobs llm json_loads Document pre rows ;;
     for_jobs llm json_loads Document post rows') w.
Proof.
  revert rows w. induction pre as [|j pre IH]; intros rows w; [reflexivity|].
  simpl. unfold bind.
  destruct (process_file _ _ _ _ _ rows w) as [[rows'|e] w']; [|reflexivity].
  rewrite IH. reflexivity.
Qed.

Lemma for_files_jobs (root : string) (files : list string) (rows : table) (w : world) :
  for_files llm json_loads Document root files rows w
  = for_jobs llm json_loads Document
      (map (pair root) (filter (fun f => is_docx f) files)) rows w.
Proof.
  revert rows w. induction files as [|f files IH]; intros rows w; [reflexivity|].
  simpl. destruct (is_docx f); simpl.
  - unfold bind.
    destruct (process_file _ _ _ _ _ rows w) as [[rows'|e] w']; [|reflexivity].
    apply IH.
  - apply IH.
Qed.

Lemma for_walk_jobs (dirs : list (string * list string * list string))
      (rows : table) (w : world) :
  for_walk llm json_loads Document dirs rows w
  = for_jobs llm json_loads Document (jobs_of dirs) rows w.
Proof.
  revert rows w. induction dirs as [|[[root ds] files] dirs IH]; intros rows w;
    [reflexivity|].
  simpl. rewrite for_jobs_app. unfold bind.
  rewrite for_files_jobs.
  destruct (for_jobs llm json_loads Document _ rows w) as [[rows'|e] w']; [|reflexivity].
  apply IH.
Qed.

Lemma to_excel_ok (t : table) (w w' : world) (u : unit) :
  to_excel t w = (Ok u, w') ->
  results_file w' = Some t /\ trace w' = trace w ++ [Saved t].
Proof.
  unfold to_excel. destruct (faults w) as [|[] later]; intros H;
    inversion H; subst; simpl; auto.
Qed.

Lemma process_file_ok (j : job) (rows rows' : table) (w w' : world) :
  process_file llm json_loads Document (fst j) (snd j) rows w = (Ok rows', w') ->
  rows' = rows ++ [row_for llm json_loads Document j]
  /\ results_file w' = Some rows'
  /\ trace w' = trace w ++ events_for Document j ++ [Saved rows'].
Proof.
  rewrite process_file_eq. unfold bind, ret.
  destruct (to_excel (rows ++ [row_for llm json_loads Document j])
                     (add_events (events_for Document j) w))
    as [[u|e] w1] eqn:Hx; [|discriminate].
  intros H. inversion H; subst.
  destruct (to_excel_ok _ _ _ _ Hx) as [Hd Ht].
  split; [reflexivity|]. split; [exact Hd|].
  rewrite Ht. simpl. rewrite <- app_assoc. reflexivity.
Qed.

Lemma for_jobs_ok (jobs : list job) :
  forall rows w rows' w',
    for_jobs llm json_loads Document jobs rows w = (Ok rows', w') ->
    rows' = rows ++ map (row_for llm json_loads Document) jobs
    /\ trace w' = trace w ++ run_trace llm json_loads Document rows jobs
    /\ (jobs <> [] -> results_file w' = Some rows').
Proof.
  induction jobs as [|j jobs IH]; intros rows w rows' w' H.
  - inversion H; subst. rewrite !app_nil_r. repeat split. congruence.
  - simpl in H. unfold bind in H.
    destruct (process_file llm json_loads Document (fst j) (snd j) rows w)
      as [[rows1|e] w1] eqn:Hp; [|discriminate].
    destruct (process_file_ok _ _ _ _ _ Hp) as (-> & Hd & Ht).
    destruct (IH _ _ _ _ H) as (Hr & Htr & Hdisk).
    split; [|split].
    + rewrite Hr. simpl. rewrite <- app_assoc. reflexivity.
    + rewrite Htr, Ht. cbn [run_trace]. rewrite <- !app_assoc. reflexivity.
    + intros _. destruct jobs as [|j' jobs'].
      * simpl in H. inversion H; subst. exact Hd.
      * apply Hdisk. discriminate.
Qed.

(** C7: in a run of the driver, once a document is processed the file
    holds the rows of all the documents processed so far, one for each in
    their order; its row was saved after the document was read and before
    the next one is opened, and the run goes on from there. *)
Theorem saved_after_each_document
        (pre post : list job) (rows : table) (w w1 : world) :
  jobs_of (os_walk MY_DOCS_FOLDER input_folder) = pre ++ post ->
  pre <> [] ->
  for_jobs llm json_loads Document pre [] w = (Ok rows, w1) ->
  rows = map (row_for llm json_loads Document) pre
  /\ results_file w1 = Some rows
  /\ trace w1 = trace w ++ run_trace llm json_loads Document [] pre
  /\ (exists before, trace w1 = before ++ [Saved rows])
  /\ for_walk llm json_loads Document
       (os_walk MY_DOCS_FOLDER input_folder) [] w
     = for_jobs llm json_loads Document post rows w1
  /\ (filter is_docx (os_listdir input_folder) <> [] ->
      main_process llm json_loads Document input_folder w
      = (rows' <- for_jobs llm json_loads Document post rows ;;
         match rows' with [] => to_excel [] | _ :: _ => ret tt end) w1)
  /\ (forall j post',
         post = j :: post' ->
         let reading := add_events (events_for Document j) w1 in
         let rows_j := rows ++ [row_for llm json_loads Document j] in
         results_file reading = Some rows
         /\ for_jobs llm json_loads Document post rows w1
            = (rows' <- (to_excel rows_j ;;; ret rows_j) ;;
               for_jobs llm json_loads Document post' rows') reading).
Proof.
  intros Hjobs Hpre Hrun.
  assert (Hwalk : for_walk llm json_loads Document
                    (os_walk MY_DOCS_FOLDER input_folder) [] w
                  = for_jobs llm json_loads Document post rows w1).
  { rewrite for_walk_jobs, Hjobs, for_jobs_app. unfold bind.
    rewrite Hrun. reflexivity. }
  destruct (for_jobs_ok _ _ _ _ _ Hrun) as (Hr & Ht & Hd).
  split; [exact Hr|]. split; [exact (Hd Hpre)|]. split; [exact Ht|].
  split.
  - destruct (exists_last Hpre) as (pre' & j & ->).
    rewrite for_jobs_app in Hrun. unfold bind in Hrun.
    destruct (for_jobs llm json_loads Document pre' [] w)
      as [[rows1|e] w2] eqn:E1; [|discriminate].
    simpl in Hrun. unfold bind, ret in Hrun.
    destruct (process_file llm json_loads Document (fst j) (snd j) rows1 w2)
      as [[rows2|e] w3] eqn:Hp; [|discriminate].
    inversion Hrun; subst.
    destruct (process_file_ok _ _ _ _ _ Hp) as (_ & _ & Hs).
    rewrite Hs, app_assoc. eauto.
  - split; [exact Hwalk|]. split.
    + intros Hdocx. unfold main_process.
      destruct (filter is_docx (os_listdir input_folder)); [congruence|].
      unfold bind at 1. rewrite Hwalk. reflexivity.
    + intros j post' ->. cbv zeta. split; [exact (Hd Hpre)|].
      cbn [for_jobs]. unfold bind at 1. rewrite process_file_eq.
      reflexivity.
Qed.

(** The guard in front of the loop looks at the names in the folder
    itself only. *)
Lemma main_process_guard (w : world) :
  filter is_docx (os_listdir input_folder) = [] ->
  main_process llm json_loads Document input_folder w
  = to_excel [blank_row] w.
Proof. intros H. unfold main_process. rewrite H. reflexivity. Qed.

(** C8, amended: when what the script guards raises, and the write of the
    handler goes through, the handler leaves a file of one blank row,
    whatever the file held and however many documents were processed. *)
Theorem handler_leaves_blank_row (w w1 : world) (e : exn) :
  guarded_main llm json_loads Document input_folder w = (Raise e, w1) ->
  hd false (faults w1) = false ->
  exists w2,
    script_main llm json_loads Document input_folder w = (Ok tt, w2)
    /\ results_file w2 = Some [blank_row]
    /\ trace w2 = trace w1 ++ [Saved [blank_row]].
Proof.
  intros Hg Hf. unfold script_main, try_except. rewrite Hg.
  cbn [any_Exception]. unfold to_excel.
  destruct (faults w1) as [|[] later]; [| discriminate |]; eexists;
    repeat split.
Qed.

End Driver.

(** ** A run of the driver on a small folder *)

Lemma saved_after_each_document_witness :
  jobs_of (os_walk MY_DOCS_FOLDER demo_folder) = (demo_first ++ demo_rest)%list
  /\ demo_first <> []
  /\ for_jobs demo_llm JSON.loads demo_document demo_first [] w0
     = (Ok [demo_row], demo_world)
  /\ results_file demo_world = Some [demo_row].
Proof.
  assert (Hjobs : jobs_of (os_walk MY_DOCS_FOLDER demo_folder)
                  = (demo_first ++ demo_rest)%list) by reflexivity.
  assert (Hne : demo_first <> []) by discriminate.
  assert (Hrun : for_jobs demo_llm JSON.loads demo_document demo_first [] w0
                 = (Ok [demo_row], demo_world)) by reflexivity.
  repeat (split; [assumption|]).
  exact (proj1 (proj2 (saved_after_each_document
                         demo_llm JSON.loads demo_document demo_folder
                         demo_first demo_rest [demo_row] w0 demo_world
                         Hjobs Hne Hrun))).
Defined.

Lemma handler_leaves_blank_row_witness :
  guarded_main demo_llm JSON.loads demo_document demo_folder faulty_world
  = (Raise (OtherError "OSError"), crashed_world)
  /\ hd false (faults crashed_world) = false
  /\ results_file crashed_world = Some [demo_row]
  /\ exists w2,
       script_main demo_llm JSON.loads demo_document demo_folder faulty_world
       = (Ok tt, w2)
       /\ results_file w2 = Some [blank_row]
       /\ trace w2 = (trace crashed_world ++ [Saved [blank_row]])%list.
Proof.
  assert (Hg : guarded_main demo_llm JSON.loads demo_document demo_folder
                 faulty_world
               = (Raise (OtherError "OSError"), crashed_world)) by reflexivity.
  assert (Hf : hd false (faults crashed_world) = false) by reflexivity.
  split; [exact Hg|]. split; [exact Hf|]. split; [reflexivity|].
  exact (handler_leaves_blank_row demo_llm JSON.loads demo_document demo_folder
           faulty_world crashed_world _ Hg Hf).
Defined.

(** C8 as stated does not hold.  The save after the first document raises
    and so does the write of the handler: the exception leaves the script
    and the results file holds the row of the first document, not the
    blank row. *)
Lemma blank_row_after_failure_claim_fails :
  fst (guarded_main demo_llm JSON.loads demo_document demo_folder
                    doubly_faulty_world)
  = Raise (OtherError "OSError")
  /\ fst (script_main demo_llm JSON.loads demo_document demo_folder
                      doubly_faulty_world)
     = Raise (OtherError "OSError")
  /\ results_file (snd (script_main demo_llm JSON.loads demo_document
                                    demo_folder doubly_faulty_world))
     = Some [demo_row]
  /\ ~ blank_row_after_failure_claim.
Proof.
  split; [reflexivity|]. split; [reflexivity|]. split; [reflexivity|].
  intros H.
  specialize (H demo_llm JSON.loads demo_document demo_folder
                doubly_faulty_world
                (snd (guarded_main demo_llm JSON.loads demo_document
                                   demo_folder doubly_faulty_world))
                (OtherError "OSError") eq_refl).
  vm_compute in H. discriminate H.
Qed.

(** ** Documents below the input folder only *)

(** C2, where the program departs from it: the walk finds the document in
    the sub-directory, but the guard in front of the loop sees no name
    ending in .docx in the folder itself, so the driver writes the blank
    row and opens nothing. *)
Theorem nested_documents_not_processed
        (llm : string -> result string) (json_loads : string -> result value)
        (Document : string -> result (list string)) :
  jobs_of (os_walk MY_DOCS_FOLDER nested_folder)
  = [(os_path_join MY_DOCS_FOLDER "2023", "report.docx")]
  /\ main_process llm json_loads Document nested_folder w0
     = (Ok tt, mk_world (Some [blank_row]) [Saved [blank_row]] []).
Proof. split; reflexivity. Qed.

(** ** The reconciler *)

Lemma mem_In (x : string) (l : list string) :
  Reconciler.mem x l = true <-> In x l.
Proof.
  unfold Reconciler.mem. rewrite existsb_exists. split.
  - intros (y & Hy & E). apply String.eqb_eq in E. now subst.
  - intros H. exists x. split; [exact H|apply String.eqb_refl].
Qed.

Lemma set_minus_In (a b : list string) (x : string) :
  In x (Reconciler.set_minus a b) <-> In x a /\ ~ In x b.
Proof.
  unfold Reconciler.set_minus. rewrite nodup_In, filter_In.
  rewrite negb_true_iff, <- not_true_iff_false, mem_In. tauto.
Qed.

Lemma insert_sorted_In (x y : string) (l : list string) :
  In y (Reconciler.insert_sorted x l) <-> y = x \/ In y l.
Proof.
  induction l as [|z l IH]; simpl.
  - intuition congruence.
  - destruct (String.leb x z); simpl; [intuition congruence|].
    rewrite IH. intuition congruence.
Qed.

Lemma insert_sorted_NoDup (x : string) (l : list string) :
  ~ In x l -> NoDup l -> NoDup (Reconciler.insert_sorted x l).
Proof.
  induction l as [|z l IH]; simpl; intros Hx Hl.
  - constructor; [tauto|constructor].
  - destruct (String.leb x z).
    + constructor; [simpl; tauto|exact Hl].
    + inversion Hl; subst. constructor.
      * rewrite insert_sorted_In. intuition congruence.
      * apply IH; [tauto|assumption].
Qed.

Lemma insert_sorted_HdRel (x z : string) (l : list string) :
  le_str z x -> HdRel le_str z l ->
  HdRel le_str z (Reconciler.insert_sorted x l).
Proof.
  intros Hzx Hl. destruct l as [|y l]; simpl.
  - constructor. exact Hzx.
  - destruct (String.leb x y); constructor; [exact Hzx|].
    inversion Hl; assumption.
Qed.

Lemma insert_sorted_Sorted (x : string) (l : list string) :
  Sorted le_str l -> Sorted le_str (Reconciler.insert_sorted x l).
Proof.
  induction l as [|z l IH]; simpl; intros Hl.
  - repeat constructor.
  - destruct (String.leb x z) eqn:E.
    + constructor; [exact Hl|]. constructor. exact E.
    + inversion Hl; subst. constructor; [apply IH; assumption|].
      apply insert_sorted_HdRel; [|assumption].
      destruct (String.leb_total x z) as [H|H]; [congruence|exact H].
Qed.

Lemma sorted_In (l : list string) (x : string) :
  In x (Reconciler.sorted l) <-> In x l.
Proof.
  induction l as [|y l IH]; simpl; [tauto|].
  rewrite insert_sorted_In, IH. intuition congruence.
Qed.

Lemma sorted_Sorted (l : list string) : Sorted le_str (Reconciler.sorted l).
Proof.
  induction l as [|y l IH]; simpl; [constructor|].
  apply insert_sorted_Sorted. exact IH.
Qed.

Lemma sorted_NoDup (l : list string) : NoDup l -> NoDup (Reconciler.sorted l).
Proof.
  induction l as [|y l IH]; simpl; intros H; [constructor|].
  inversion H; subst.
  apply insert_sorted_NoDup; [rewrite sorted_In; assumption|auto].
Qed.

Lemma substring_all (s : string) : substring 0 (String.length s) s = s.
Proof. induction s as [|c r IH]; simpl; [reflexivity|]. now rewrite IH. Qed.

Lemma substring_cut (s : string) :
  forall n, substring 0 n s ++ substring n (String.length s - n) s = s.
Proof.
  induction s as [|c r IH]; intros [|n]; simpl; try reflexivity.
  - now rewrite substring_all.
  - now rewrite IH.
Qed.

(** [splitext] cuts a name in two: root and extension make it up again. *)
Lemma splitext_parts (p : string) :
  fst (Reconciler.splitext p) ++ snd (Reconciler.splitext p) = p.
Proof.
  unfold Reconciler.splitext.
  destruct (_ && _); simpl; [|apply append_nil_r].
  unfold Reconciler.slice, Reconciler.slice_from.
  rewrite Z.sub_0_r. apply substring_cut.
Qed.

(** The names that pass the test of the copy loop. *)
Lemma candidates_In (listing processed : list string) (f : string) :
  In f (Reconciler.copy_candidates listing processed)
  <-> In f (Reconciler.input_files listing)
      /\ In (Reconciler.stem f) (Reconciler.missing_in_results listing processed).
Proof.
  unfold Reconciler.copy_candidates. rewrite filter_In, mem_In. tauto.
Qed.

Lemma until_raise_In (copy2 : string -> result unit) (l : list string)
      (f : string) :
  In f (copied_until_raise copy2 l) -> In f l.
Proof.
  induction l as [|g l IH]; simpl; [tauto|].
  destruct (copy2 g); simpl; [|tauto].
  intros [E|H]; [left; exact E|right; exact (IH H)].
Qed.

Lemma until_raise_all (copy2 : string -> result unit) (l : list string) :
  (forall f, In f l -> copy2 f = Ok tt) -> copied_until_raise copy2 l = l.
Proof.
  induction l as [|g l IH]; intros H; simpl; [reflexivity|].
  rewrite (H g (or_introl eq_refl)), IH; [reflexivity|].
  intros f Hf. apply H. right. exact Hf.
Qed.

(** The loop copies the candidates in front of the first failing copy. *)
Lemma copy_loop_fst (listing processed : list string)
      (copy2 : string -> result unit) (files : list string) :
  fst (Reconciler.copy_loop listing processed copy2 files)
  = copied_until_raise copy2
      (filter (fun file =>
                 Reconciler.mem (Reconciler.stem file)
                   (Reconciler.missing_in_results listing processed))
              files).
Proof.
  induction files as [|g files IH]; [reflexivity|].
  cbn [Reconciler.copy_loop filter].
  destruct (Reconciler.mem _ _); [|exact IH].
  cbn [copied_until_raise]. destruct (copy2 g); [|reflexivity].
  destruct (Reconciler.copy_loop listing processed copy2 files) as [copied r].
  simpl in *. now rewrite IH.
Qed.

(** The loop ends normally when no copy raises. *)
Lemma copy_loop_snd (listing processed : list string)
      (copy2 : string -> result unit) (files : list string) :
  (forall f,
      In f (filter (fun file =>
                      Reconciler.mem (Reconciler.stem file)
                        (Reconciler.missing_in_results listing processed))
                   files) ->
      copy2 f = Ok tt) ->
  snd (Reconciler.copy_loop listing processed copy2 files) = Ok tt.
Proof.
  induction files as [|g files IH]; intros H; [reflexivity|].
  cbn [Reconciler.copy_loop]. cbn [filter] in H.
  destruct (Reconciler.mem _ _); [|exact (IH H)].
  rewrite (H g (or_introl eq_refl)).
  destruct (Reconciler.copy_loop listing processed copy2 files) as [copied r].
  simpl in *. apply IH. intros f Hf. apply H. right. exact Hf.
Qed.

Lemma copied_candidates (listing processed : list string)
      (copy2 : string -> result unit) :
  Reconciler.copied_to_unprocessed listing processed copy2
  = copied_until_raise copy2 (Reconciler.copy_candidates listing processed).
Proof. apply copy_loop_fst. Qed.

(** Whatever is copied passed the test of the loop. *)
Lemma copied_In (listing processed : list string)
      (copy2 : string -> result unit) (f : string) :
  In f (Reconciler.copied_to_unprocessed listing processed copy2)
  -> In f (Reconciler.copy_candidates listing processed).
Proof. rewrite copied_candidates. apply until_raise_In. Qed.

Lemma copied_all (listing processed : list string)
      (copy2 : string -> result unit) :
  (forall f, In f (Reconciler.copy_candidates listing processed) ->
             copy2 f = Ok tt) ->
  Reconciler.copied_to_unprocessed listing processed copy2
  = Reconciler.copy_candidates listing processed
  /\ Reconciler.copy_outcome listing processed copy2 = Ok tt.
Proof.
  intros H. split.
  - rewrite copied_candidates. apply until_raise_all, H.
  - apply copy_loop_snd, H.
Qed.




(* ================================================================== *)
(** * Further properties of the code *)

(** ** Trimming *)

Lemma rstrip_idempotent (s : string) : Py.rstrip (Py.rstrip s) = Py.rstrip s.
Proof.
  induction s as [|c r IH]; [reflexivity|].
  simpl. destruct (Py.rstrip r) as [|d r'] eqn:E.
  - destruct (Py.isspace c) eqn:Hc; simpl; [reflexivity|].
    rewrite Hc. reflexivity.
  - cbn [Py.rstrip]. fold Py.rstrip. simpl in IH. rewrite IH. reflexivity.
Qed.

Lemma lstrip_head (s : string) :
  Py.lstrip s = EmptyString
  \/ exists c r, Py.lstrip s = String c r /\ Py.isspace c = false.
Proof.
  induction s as [|c r IH]; simpl; [now left|].
  destruct (Py.isspace c) eqn:Hc; [exact IH|].
  right. exists c, r. auto.
Qed.

Lemma rstrip_cons (c : ascii) (r : string) :
  Py.isspace c = false ->
  Py.rstrip (String c r) = String c (Py.rstrip r).
Proof.
  intros Hc. simpl. destruct (Py.rstrip r); [rewrite Hc|]; reflexivity.
Qed.

Lemma strip_idempotent (s : string) : Py.strip (Py.strip s) = Py.strip s.
Proof.
  unfold Py.strip.
  destruct (lstrip_head s) as [E|(c & r & E & Hc)]; rewrite E.
  - reflexivity.
  - rewrite (rstrip_cons _ _ Hc). cbn [Py.lstrip]. rewrite Hc.
    rewrite <- (rstrip_cons _ _ Hc). apply rstrip_idempotent.
Qed.

Lemma lstrip_contains (s : string) (d : ascii) :
  Py.contains d (Py.lstrip s) = true -> Py.contains d s = true.
Proof.
  induction s as [|c r IH]; simpl; [auto|].
  destruct (Py.isspace c); [|auto].
  intros H. rewrite (IH H). apply orb_true_r.
Qed.

Lemma strip_contains (s : string) (d : ascii) :
  Py.contains d (Py.strip s) = true -> Py.contains d s = true.
Proof.
  unfold Py.strip. intros H. apply lstrip_contains, rstrip_contains, H.
Qed.

Lemma after_last_free (c : ascii) (s : string) :
  Py.contains c (after_last c s) = false.
Proof.
  induction s as [|d r IH]; [reflexivity|].
  simpl. destruct (Py.contains c r) eqn:Hr; [exact IH|].
  destruct (d =? c)%char eqn:Hd; [exact Hr|].
  simpl. rewrite Hd, Hr. reflexivity.
Qed.

Lemma re_sub_from_contains (d : ascii) (s : string) :
  forall pw in_match,
    Py.contains d (re_sub_from pw in_match s) = true ->
    Py.contains d s = true.
Proof.
  induction s as [|c r IH]; intros pw in_match; simpl; [auto|].
  destruct (in_match && negb (c =? Py.newline)%char).
  - intros H. rewrite (IH _ _ H). apply orb_true_r.
  - destruct (match_here pw (String c r)).
    + intros H. rewrite (IH _ _ H). apply orb_true_r.
    + simpl. intros H. apply orb_true_iff in H. destruct H as [H|H].
      * rewrite H. reflexivity.
      * rewrite (IH _ _ H). apply orb_true_r.
Qed.

Lemma clean_location_is_trimmed (location : string) :
  trimmed (clean_location location).
Proof.
  unfold clean_location, trimmed.
  destruct (Py.falsy location); [reflexivity|].
  destruct (Py.contains Py.comma location); apply strip_idempotent.
Qed.

Lemma clean_location_has_no_comma (location : string) :
  Py.contains Py.comma (clean_location location) = false.
Proof.
  unfold clean_location.
  destruct (Py.falsy location); [reflexivity|].
  destruct (Py.contains Py.comma location) eqn:Hc.
  - rewrite last_split.
    destruct (Py.contains Py.comma (Py.strip (after_last Py.comma location)))
      eqn:E; [|reflexivity].
    apply strip_contains in E. rewrite after_last_free in E. discriminate.
  - destruct (Py.contains Py.comma (Py.strip (re_sub_roadway location)))
      eqn:E; [|reflexivity].
    apply strip_contains in E. unfold re_sub_roadway in E.
    apply re_sub_from_contains in E. congruence.
Qed.

(** X1: what [clean_location] returns has no white space at either end
    and no comma in it. *)
Theorem clean_location_trimmed_no_comma (location : string) :
  trimmed (clean_location location)
  /\ Py.contains Py.comma (clean_location location) = false.
Proof.
  split.
  - apply clean_location_is_trimmed.
  - apply clean_location_has_no_comma.
Qed.

(** ** Metadata inference *)

Lemma field_or_trimmed (members : list (string * value)) (key sentinel : string)
      (post : string -> string) :
  trimmed sentinel ->
  (forall s, trimmed (post (Py.strip s))) ->
  trimmed (field_or members key post sentinel).
Proof.
  intros Hs Hp. unfold field_or.
  destruct (dict_lookup key members) as [[]|]; auto.
Qed.

Lemma tidy_default : tidy default_metadata.
Proof. repeat split. Qed.

Lemma tidy_of_value (v : value) : tidy (metadata_of_value v).
Proof.
  destruct v; try apply tidy_default.
  simpl. destruct (all_text members); [|apply tidy_default].
  unfold fields_of, tidy.
  repeat split;
    try (apply field_or_trimmed;
         [reflexivity
         |intros s; first [apply strip_idempotent
                          |apply clean_location_is_trimmed]]).
  unfold field_or.
  destruct (dict_lookup "location" members) as [[]|]; try reflexivity.
  apply clean_location_has_no_comma.
Qed.

Lemma tidy_policy (json_loads : string -> result value) (content : string) :
  tidy (parsing_policy json_loads content).
Proof.
  unfold parsing_policy.
  destruct (json_loads content) as [v|[]];
    try apply tidy_default; try apply tidy_of_value.
  destruct (search_braces content) as [group|]; [|apply tidy_default].
  destruct (json_loads group); [apply tidy_of_value|apply tidy_default].
Qed.

(** X2: whatever the model replies, the five fields the inference returns
    have no white space at either end, and the location has no comma. *)
Theorem analyze_returns_tidy_fields
        (llm : string -> result string) (json_loads : string -> result value)
        (doc_text : string) (w : world) :
  exists md w',
    analyze_ir_content llm json_loads doc_text w = (Ok md, w')
    /\ tidy md.
Proof.
  eexists. eexists. split; [apply analyze_eq|].
  unfold metadata_for. destruct (Py.falsy doc_text); [apply tidy_default|].
  destruct (llm doc_text) as [reply|e]; [|apply tidy_default].
  rewrite parse_content_policy. apply tidy_policy.
Qed.

(** X3: a reply that is valid JSON but not an object (an array, a string,
    a number) gives the five sentinels: [get] raises on it, and the search
    for a brace-delimited text is not tried. *)
Theorem non_object_reply_gives_sentinels
        (llm : string -> result string) (json_loads : string -> result value)
        (doc_text reply : string) (v : value) (w : world) :
  Py.falsy doc_text = false ->
  llm doc_text = Ok reply ->
  json_loads (Py.strip reply) = Ok v ->
  (forall members, v <> JObject members) ->
  analyze_ir_content llm json_loads doc_text w
  = (Ok default_metadata, record (Invoked doc_text) w).
Proof.
  intros Hne Hllm Hv Hobj.
  rewrite (analyze_invokes_once _ _ _ _ Hne), Hllm.
  unfold parse_content. rewrite Hv.
  destruct v; try reflexivity.
  elim (Hobj members). reflexivity.
Qed.

Lemma non_object_reply_gives_sentinels_witness :
  Py.falsy "report" = false
  /\ (fun _ : string => Ok reply_with_array) "report" = Ok reply_with_array
  /\ JSON.loads (Py.strip reply_with_array)
     = Ok (JArray [JObject [("state", JString "Goa")]])
  /\ search_braces (Py.strip reply_with_array)
     = Some (json_text "{'state': 'Goa'}")
  /\ analyze_ir_content (fun _ => Ok reply_with_array) JSON.loads "report" w0
     = (Ok default_metadata, record (Invoked "report") w0).
Proof.
  repeat (split; [reflexivity|]).
  apply (non_object_reply_gives_sentinels
           (fun _ => Ok reply_with_array) JSON.loads "report" reply_with_array
           (JArray [JObject [("state", JString "Goa")]]) w0
           eq_refl eq_refl eq_refl).
  intros members. discriminate.
Defined.

(** ** Text extraction *)

Lemma trimmed_nonempty_nil (paragraphs : list string) :
  trimmed_nonempty paragraphs = []
  <-> Forall (fun t => Py.strip t = EmptyString) paragraphs.
Proof.
  unfold trimmed_nonempty.
  induction paragraphs as [|p ps IH]; cbn [map filter].
  - split; auto.
  - destruct (Py.strip p) eqn:E; cbn [Py.falsy negb].
    + rewrite IH. split; intros H.
      * constructor; assumption.
      * inversion H; assumption.
    + split; [discriminate|]. intros H. inversion H. congruence.
Qed.

Lemma trimmed_nonempty_head (paragraphs : list string) (x : string)
      (xs : list string) :
  trimmed_nonempty paragraphs = x :: xs -> x <> EmptyString.
Proof.
  unfold trimmed_nonempty. intros H.
  assert (Hin : In x (filter (fun t => negb (Py.falsy t))
                             (map Py.strip paragraphs)))
    by (rewrite H; left; reflexivity).
  apply filter_In in Hin. destruct Hin as [_ Hx].
  destruct x; [discriminate|discriminate].
Qed.

Lemma join_head_nonempty (sep x : string) (xs : list string) :
  x <> EmptyString -> Py.join sep (x :: xs) <> EmptyString.
Proof.
  intros Hx. destruct x as [|c x]; [congruence|].
  rewrite join_cons_char. discriminate.
Qed.

(** X4: the extraction returns the empty text exactly when the document
    cannot be read or every paragraph of it is blank. *)
Theorem extract_text_empty_iff
        (Document : string -> result (list string))
        (doc_path : string) (w : world) :
  fst (extract_text_from_docx Document doc_path w) = Ok EmptyString
  <-> match Document doc_path with
      | Ok paragraphs =>
          Forall (fun t => Py.strip t = EmptyString) paragraphs
      | Raise _ => True
      end.
Proof.
  rewrite extract_text_eq. cbn [fst]. unfold text_of.
  destruct (Document doc_path) as [paragraphs|e]; [|tauto].
  rewrite <- trimmed_nonempty_nil.
  destruct (trimmed_nonempty paragraphs) as [|x xs] eqn:E.
  - split; reflexivity.
  - pose proof (join_head_nonempty lf x xs (trimmed_nonempty_head _ _ _ E))
      as Hj.
    split; [|discriminate]. intros H. exfalso.
    remember (Py.join lf (x :: xs)) as joined eqn:Ej. clear Ej.
    destruct (MAX_TEXT_LENGTH <? String.length joined)%nat eqn:Hlt.
    + apply Nat.ltb_lt in Hlt. inversion H as [H1].
      apply (f_equal String.length) in H1.
      rewrite length_slice_to in H1.
      change (String.length EmptyString) with 0 in H1.
      unfold MAX_TEXT_LENGTH in *. lia.
    + inversion H. congruence.
Qed.

(** ** The batch driver *)

Lemma to_excel_cases (t : table) (w : world) :
  (hd false (faults w) = false
   /\ to_excel t w
      = (Ok tt, mk_world (Some t) (trace w ++ [Saved t])%list (tl (faults w))))
  \/ (hd false (faults w) = true
      /\ to_excel t w
         = (Raise (OtherError "OSError"),
            mk_world (results_file w) (trace w) (tl (faults w)))).
Proof.
  unfold to_excel. destruct (faults w) as [|[] later]; simpl; auto.
Qed.

Lemma fault_free_hd (w : world) : fault_free w -> hd false (faults w) = false.
Proof.
  unfold fault_free. destruct (faults w) as [|b later]; [reflexivity|].
  intros H. apply H. left. reflexivity.
Qed.

Lemma fault_free_tl (w : world) (r : option table) (tr : list event) :
  fault_free w -> fault_free (mk_world r tr (tl (faults w))).
Proof.
  unfold fault_free. simpl. destruct (faults w) as [|b later]; simpl.
  - tauto.
  - intros H b' Hb. apply H. right. exact Hb.
Qed.

Lemma walk_entries_count (root : string) (entries : list node) :
  Forall found_below entries ->
  List.length (jobs_in (root, dirnames entries, filenames entries))
  + List.length (jobs_of (flat_map (walk_node root) entries))
  = count_docx entries.
Proof.
  unfold jobs_of, count_docx.
  induction entries as [|x entries IHe]; intros IH; [reflexivity|].
  inversion IH as [|? ? Hx Hrest]; subst.
  specialize (IHe Hrest). specialize (Hx root). unfold jobs_of in Hx.
  cbn [flat_map map list_sum]. rewrite flat_map_app, length_app, Hx.
  unfold jobs_in, filenames in *.
  rewrite !length_map in *.
  destruct x as [fname|dname sub];
    cbn [is_dir negb map filter node_name count_docx_node list_sum fold_right].
  - destruct (is_docx fname); cbn [List.length];
      fold (list_sum (map count_docx_node entries)); lia.
  - fold (count_docx sub). fold (list_sum (map count_docx_node entries)). lia.
Qed.

Lemma walk_node_count (n : node) : found_below n.
Proof.
  induction n as [name|name entries IH] using
    (fix ind (P : node -> Prop)
         (HF : forall name, P (File name))
         (HD : forall name entries, Forall P entries -> P (Dir name entries))
         (n : node) {struct n} : P n :=
       match n with
       | File name => HF name
       | Dir name entries =>
           HD name entries
              ((fix all (l : list node) : Forall P l :=
                  match l with
                  | [] => Forall_nil P
                  | x :: l' => Forall_cons x (ind P HF HD x) (all l')
                  end) entries)
       end).
  - intros parent. reflexivity.
  - intros parent. cbn [walk_node].
    unfold jobs_of. cbn [flat_map]. rewrite length_app.
    apply walk_entries_count. exact IH.
Qed.

Lemma os_walk_count (top : string) (entries : list node) :
  List.length (jobs_of (os_walk top entries)) = count_docx entries.
Proof.
  unfold os_walk, jobs_of. cbn [flat_map]. rewrite length_app.
  apply walk_entries_count. apply Forall_forall. intros x _.
  apply walk_node_count.
Qed.

Section Runs.

Local Open Scope list_scope.

Variable llm : string -> result string.
Variable json_loads : string -> result value.
Variable Document : string -> result (list string).
Variable input_folder : list node.

Lemma for_jobs_cons (j : job) (jobs : list job) (rows : table) (w : world) :
  for_jobs llm json_loads Document (j :: jobs) rows w
  = match to_excel (rows ++ [row_for llm json_loads Document j])
                   (add_events (events_for Document j) w) with
    | (Ok _, w1) =>
        for_jobs llm json_loads Document jobs
                 (rows ++ [row_for llm json_loads Document j]) w1
    | (Raise e, w1) => (Raise e, w1)
    end.
Proof.
  cbn [for_jobs]. unfold bind at 1. rewrite process_file_eq.
  unfold bind, ret.
  destruct (to_excel _ _) as [[u|e] w1]; reflexivity.
Qed.

Lemma for_jobs_fault_free (jobs : list job) :
  forall rows w,
    fault_free w ->
    exists w',
      for_jobs llm json_loads Document jobs rows w
      = (Ok (rows ++ map (row_for llm json_loads Document) jobs), w')
      /\ fault_free w'
      /\ (jobs <> [] ->
          results_file w'
          = Some (rows ++ map (row_for llm json_loads Document) jobs))
      /\ (jobs = [] -> w' = w).
Proof.
  induction jobs as [|j jobs IH]; intros rows w Hw.
  - exists w. rewrite app_nil_r. repeat split; [assumption|congruence].
  - rewrite for_jobs_cons.
    set (w1 := add_events (events_for Document j) w).
    assert (Hw1 : fault_free w1) by exact Hw.
    destruct (to_excel_cases (rows ++ [row_for llm json_loads Document j]) w1)
      as [[_ E]|[Hh _]];
      [|rewrite (fault_free_hd _ Hw1) in Hh; discriminate].
    rewrite E.
    set (w2 := mk_world _ _ _) in *.
    assert (Hw2 : fault_free w2) by (apply fault_free_tl; exact Hw1).
    destruct (IH (rows ++ [row_for llm json_loads Document j]) w2 Hw2)
      as (w' & Hrun & Hff & Hdisk & Hnil).
    exists w'. cbn [map]. rewrite <- app_assoc in Hrun, Hdisk. cbn [app] in *.
    split; [exact Hrun|]. split; [exact Hff|]. split; [|discriminate].
    intros _. destruct jobs as [|j' jobs'].
    + rewrite (Hnil eq_refl). reflexivity.
    + apply Hdisk. discriminate.
Qed.

Lemma main_process_fault_free (w : world) :
  fault_free w ->
  exists w',
    main_process llm json_loads Document input_folder w = (Ok tt, w')
    /\ results_file w'
       = Some (expected_table llm json_loads Document input_folder)
    /\ fault_free w'.
Proof.
  intros Hw. unfold main_process, expected_table.
  destruct (filter is_docx (os_listdir input_folder)) as [|f fs].
  - destruct (to_excel_cases [blank_row] w) as [[_ E]|[Hh _]];
      [|rewrite (fault_free_hd _ Hw) in Hh; discriminate].
    rewrite E. eexists. split; [reflexivity|]. split; [reflexivity|].
    apply fault_free_tl. exact Hw.
  - unfold bind. rewrite for_walk_jobs.
    destruct (for_jobs_fault_free
                (jobs_of (os_walk MY_DOCS_FOLDER input_folder)) [] w Hw)
      as (w1 & Hrun & Hff & Hdisk & Hnil).
    rewrite Hrun. cbn [app] in *.
    destruct (jobs_of (os_walk MY_DOCS_FOLDER input_folder)) as [|j jobs].
    + cbn [map].
      destruct (to_excel_cases [] w1) as [[_ E]|[Hh _]];
        [|rewrite (fault_free_hd _ Hff) in Hh; discriminate].
      rewrite E. eexists. split; [reflexivity|]. split; [reflexivity|].
      apply fault_free_tl. exact Hff.
    + cbn [map]. exists w1. split; [reflexivity|]. split; [|exact Hff].
      apply Hdisk. discriminate.
Qed.

(** X5: when no write of the results file fails, [main_process] returns
    normally whatever the documents and the model do.  It leaves the blank
    row when no name in the input folder itself ends in .docx, and
    otherwise one row for each document the walk finds, in the order of
    the walk, under the bare name of the file: no row at all when the walk
    finds none. *)
Theorem main_process_without_faults (w : world) :
  fault_free w ->
  exists w',
    main_process llm json_loads Document input_folder w = (Ok tt, w')
    /\ results_file w'
       = Some (expected_table llm json_loads Document input_folder)
    /\ (filter is_docx (os_listdir input_folder) = [] ->
        expected_table llm json_loads Document input_folder = [blank_row])
    /\ (filter is_docx (os_listdir input_folder) <> [] ->
        map Filename (expected_table llm json_loads Document input_folder)
        = map snd (jobs_of (os_walk MY_DOCS_FOLDER input_folder))).
Proof.
  intros Hw. destruct (main_process_fault_free w Hw) as (w' & Hrun & Hd & _).
  exists w'. split; [exact Hrun|]. split; [exact Hd|].
  unfold expected_table.
  destruct (filter is_docx (os_listdir input_folder)); split;
    try reflexivity; try congruence.
  intros _. rewrite map_map. apply map_ext. intros j. unfold row_for.
  destruct (metadata_for _ _ _) as [[[[a b] c] d] e]. reflexivity.
Qed.

(** X6: when no write fails and a name in the input folder itself ends in
    .docx, the results file ends up with as many rows as there are files
    with such a name in the whole tree below the folder. *)
Theorem one_row_for_each_document (w : world) :
  fault_free w ->
  filter is_docx (os_listdir input_folder) <> [] ->
  exists rows w',
    main_process llm json_loads Document input_folder w = (Ok tt, w')
    /\ results_file w' = Some rows
    /\ List.length rows = count_docx input_folder.
Proof.
  intros Hw Hg. destruct (main_process_fault_free w Hw) as (w' & Hrun & Hd & _).
  eexists. exists w'. split; [exact Hrun|]. split; [exact Hd|].
  unfold expected_table.
  destruct (filter is_docx (os_listdir input_folder)); [congruence|].
  rewrite length_map. apply os_walk_count.
Qed.


(** X8: a document from which no text comes (it cannot be read, or all
    its paragraphs are blank) gets a row of sentinels under its name, and
    the model is not called for it: the save follows the opening. *)
Theorem empty_document_gets_sentinel_row
        (root fname : string) (rows : table) (w : world) :
  fst (extract_text_from_docx Document (os_path_join root fname) w)
  = Ok EmptyString ->
  process_file llm json_loads Document root fname rows w
  = (to_excel (rows ++ [sentinel_row fname]) ;;;
     ret (rows ++ [sentinel_row fname]))
      (record (Opened (os_path_join root fname)) w).
Proof.
  rewrite extract_text_eq. cbn [fst]. intros H. inversion H as [Ht].
  rewrite (process_file_eq llm json_loads Document (root, fname)).
  unfold row_for, events_for, job_text, metadata_for. cbn [fst snd].
  rewrite Ht. reflexivity.
Qed.






End Runs.

Lemma fault_free_w0 : fault_free w0.
Proof. intros b []. Qed.

Lemma main_process_without_faults_witness :
  fault_free w0
  /\ exists w',
      main_process demo_llm JSON.loads demo_document demo_folder w0 = (Ok tt, w')
      /\ results_file w' = Some [demo_row; sentinel_row "B.DOCX"].
Proof.
  split; [exact fault_free_w0|].
  destruct (main_process_without_faults demo_llm JSON.loads demo_document
              demo_folder w0 fault_free_w0) as (w' & Hrun & Hd & _).
  exists w'. split; [exact Hrun|]. rewrite Hd. reflexivity.
Defined.

Lemma one_row_for_each_document_witness :
  fault_free w0
  /\ filter is_docx (os_listdir demo_folder) <> []
  /\ count_docx demo_folder = 2
  /\ exists rows w',
      main_process demo_llm JSON.loads demo_document demo_folder w0 = (Ok tt, w')
      /\ results_file w' = Some rows
      /\ List.length rows = count_docx demo_folder.
Proof.
  assert (Hg : filter is_docx (os_listdir demo_folder) <> []) by discriminate.
  split; [exact fault_free_w0|]. split; [exact Hg|]. split; [reflexivity|].
  exact (one_row_for_each_document demo_llm JSON.loads demo_document
           demo_folder w0 fault_free_w0 Hg).
Defined.


Lemma empty_document_gets_sentinel_row_witness :
  fst (extract_text_from_docx demo_document
         (os_path_join (os_path_join MY_DOCS_FOLDER "2023") "B.DOCX") w0)
  = Ok EmptyString
  /\ process_file demo_llm JSON.loads demo_document
       (os_path_join MY_DOCS_FOLDER "2023") "B.DOCX" [] w0
     = (Ok [sentinel_row "B.DOCX"],
        mk_world (Some [sentinel_row "B.DOCX"])
          [Opened (os_path_join (os_path_join MY_DOCS_FOLDER "2023") "B.DOCX");
           Saved [sentinel_row "B.DOCX"]] []).
Proof.
  assert (H : fst (extract_text_from_docx demo_document
                     (os_path_join (os_path_join MY_DOCS_FOLDER "2023")
                                   "B.DOCX") w0) = Ok EmptyString)
    by reflexivity.
  split; [exact H|].
  rewrite (empty_document_gets_sentinel_row demo_llm JSON.loads demo_document
             (os_path_join MY_DOCS_FOLDER "2023") "B.DOCX" [] w0 H).
  reflexivity.
Defined.


(** ** The reconciler *)

Lemma le_str_iff (a b : string) :
  le_str a b <-> a = b \/ OrderedTypeEx.String_as_OT.lt a b.
Proof.
  unfold le_str, String.leb.
  pose proof (OrderedTypeEx.String_as_OT.cmp_eq a b) as He.
  pose proof (OrderedTypeEx.String_as_OT.cmp_lt a b) as Hl.
  unfold OrderedTypeEx.String_as_OT.cmp in *.
  destruct (String.compare a b).
  - split; [intros _; left; now apply He|reflexivity].
  - split; [intros _; right; now apply Hl|reflexivity].
  - split; [discriminate|].
    intros [H|H]; [apply He in H|apply Hl in H]; discriminate.
Qed.

Lemma le_str_trans (a b c : string) : le_str a b -> le_str b c -> le_str a c.
Proof.
  rewrite !le_str_iff. intros [->|H1] [->|H2]; auto.
  right. exact (OrderedTypeEx.String_as_OT.lt_trans _ _ _ H1 H2).
Qed.

Lemma le_str_antisym (a b : string) : le_str a b -> le_str b a -> a = b.
Proof. unfold le_str. apply String.leb_antisym. Qed.

(** A list in order and without repetition is fixed by its elements. *)
Lemma sorted_unique (l1 : list string) :
  forall l2,
    StronglySorted le_str l1 -> StronglySorted le_str l2 ->
    NoDup l1 -> NoDup l2 ->
    (forall x, In x l1 <-> In x l2) ->
    l1 = l2.
Proof.
  induction l1 as [|a l1 IH]; intros [|b l2] S1 S2 N1 N2 Hin.
  - reflexivity.
  - exfalso. apply (Hin b). left. reflexivity.
  - exfalso. apply (Hin a). left. reflexivity.
  - inversion S1 as [|? ? S1' F1]; inversion S2 as [|? ? S2' F2]; subst.
    inversion N1 as [|? ? Na N1']; inversion N2 as [|? ? Nb N2']; subst.
    rewrite Forall_forall in F1, F2.
    assert (Hab : a = b).
    { destruct (proj1 (Hin a) (or_introl eq_refl)) as [E|Ha]; [now symmetry|].
      destruct (proj2 (Hin b) (or_introl eq_refl)) as [E|Hb]; [exact E|].
      apply le_str_antisym; [apply F1, Hb|apply F2, Ha]. }
    subst b. f_equal. apply IH; try assumption.
    intros x. split; intros Hx.
    + destruct (proj1 (Hin x) (or_intror Hx)) as [E|H]; [|exact H].
      subst x. contradiction.
    + destruct (proj2 (Hin x) (or_intror Hx)) as [E|H]; [|exact H].
      subst x. contradiction.
Qed.

Lemma sorted_set_minus_ext (a b a' b' : list string) :
  (forall x, In x a <-> In x a') ->
  (forall x, In x b <-> In x b') ->
  Reconciler.sorted (Reconciler.set_minus a b)
  = Reconciler.sorted (Reconciler.set_minus a' b').
Proof.
  intros Ha Hb.
  assert (Htr : RelationClasses.Transitive le_str)
    by (intros x y z; apply le_str_trans).
  apply sorted_unique.
  - apply Sorted_StronglySorted; [exact Htr|apply sorted_Sorted].
  - apply Sorted_StronglySorted; [exact Htr|apply sorted_Sorted].
  - apply sorted_NoDup, NoDup_nodup.
  - apply sorted_NoDup, NoDup_nodup.
  - intros x. rewrite !sorted_In, !set_minus_In, Ha, Hb. tauto.
Qed.

Lemma input_stems_ext (listing listing' : list string) :
  (forall x, In x listing <-> In x listing') ->
  forall x,
    In x (Reconciler.input_files_no_ext listing)
    <-> In x (Reconciler.input_files_no_ext listing').
Proof.
  intros H x. unfold Reconciler.input_files_no_ext, Reconciler.input_files.
  rewrite !in_map_iff. split; intros (f & E & Hf); exists f;
    (split; [exact E|]); apply filter_In in Hf; apply filter_In;
    destruct Hf as [Hf He]; split; try exact He; apply H; exact Hf.
Qed.

Lemma processed_stems_ext (processed processed' : list string) :
  (forall x, In x processed <-> In x processed') ->
  forall x,
    In x (Reconciler.processed_files_no_ext processed)
    <-> In x (Reconciler.processed_files_no_ext processed').
Proof.
  intros H x. unfold Reconciler.processed_files_no_ext.
  rewrite !in_map_iff. split; intros (f & E & Hf); exists f;
    (split; [exact E|]); apply H; exact Hf.
Qed.

(** X10: the comparison workbook depends only on which names are in the
    input folder and in the results column: listing them in another order
    or more than once gives the same two sheets. *)
Theorem report_depends_on_names_only
        (listing listing' processed processed' : list string) :
  (forall x, In x listing <-> In x listing') ->
  (forall x, In x processed <-> In x processed') ->
  Reconciler.comparison_output listing processed
  = Reconciler.comparison_output listing' processed'.
Proof.
  intros Hl Hp. unfold Reconciler.comparison_output,
    Reconciler.missing_in_results, Reconciler.extra_in_results.
  f_equal; apply sorted_set_minus_ext;
    first [apply input_stems_ext; exact Hl
          |apply processed_stems_ext; exact Hp].
Qed.

Lemma report_depends_on_names_only_witness :
  (forall x, In x ["B.docx"; "A.docx"] <-> In x ["A.docx"; "B.docx"; "A.docx"])
  /\ (forall x, In x ["C.docx"; "B.docx"; "B.docx"] <-> In x ["B.docx"; "C.docx"])
  /\ Reconciler.comparison_output ["B.docx"; "A.docx"]
                                  ["C.docx"; "B.docx"; "B.docx"]
     = Reconciler.comparison_output ["A.docx"; "B.docx"; "A.docx"]
                                    ["B.docx"; "C.docx"].
Proof.
  assert (H1 : forall x, In x ["B.docx"; "A.docx"]
                         <-> In x ["A.docx"; "B.docx"; "A.docx"])
    by (intros x; simpl; tauto).
  assert (H2 : forall x, In x ["C.docx"; "B.docx"; "B.docx"]
                         <-> In x ["B.docx"; "C.docx"])
    by (intros x; simpl; tauto).
  split; [exact H1|]. split; [exact H2|].
  exact (report_depends_on_names_only _ _ _ _ H1 H2).
Defined.

Lemma missing_In (listing processed : list string) (x : string) :
  In x (Reconciler.missing_in_results listing processed)
  <-> In x (Reconciler.input_files_no_ext listing)
      /\ ~ In x (Reconciler.processed_files_no_ext processed).
Proof.
  unfold Reconciler.missing_in_results. rewrite sorted_In. apply set_minus_In.
Qed.

Lemma extra_In (listing processed : list string) (x : string) :
  In x (Reconciler.extra_in_results listing processed)
  <-> In x (Reconciler.processed_files_no_ext processed)
      /\ ~ In x (Reconciler.input_files_no_ext listing).
Proof.
  unfold Reconciler.extra_in_results. rewrite sorted_In. apply set_minus_In.
Qed.

Lemma nil_iff_no_element (A : Type) (l : list A) :
  l = [] <-> forall x, ~ In x l.
Proof.
  split.
  - intros -> x [].
  - destruct l as [|a l]; [reflexivity|].
    intros H. elim (H a). left. reflexivity.
Qed.

(** X11: the report and the copies agree.  When the sheet of missing
    files is empty nothing is copied and the loop ends normally; when no
    copy raises, no file is copied exactly when that sheet is empty; and
    when every document of the input folder is named in the results
    column, nothing is missing and nothing is copied. *)
Theorem copies_follow_missing (listing processed : list string)
        (copy2 : string -> result unit) :
  (Reconciler.missing_in_results listing processed = [] ->
   Reconciler.copied_to_unprocessed listing processed copy2 = []
   /\ Reconciler.copy_outcome listing processed copy2 = Ok tt)
  /\ ((forall f, In f (Reconciler.copy_candidates listing processed) ->
                 copy2 f = Ok tt) ->
      (Reconciler.copied_to_unprocessed listing processed copy2 = []
       <-> Reconciler.missing_in_results listing processed = []))
  /\ ((forall f, In f (Reconciler.input_files listing) -> In f processed) ->
      Reconciler.missing_in_results listing processed = []
      /\ Reconciler.copied_to_unprocessed listing processed copy2 = []
      /\ Reconciler.copy_outcome listing processed copy2 = Ok tt).
Proof.
  assert (Hiff : Reconciler.copy_candidates listing processed = []
                 <-> Reconciler.missing_in_results listing processed = []).
  { rewrite !nil_iff_no_element. split.
    - intros H x Hx. pose proof Hx as Hx'.
      apply missing_In in Hx'. destruct Hx' as [Hs _].
      unfold Reconciler.input_files_no_ext in Hs.
      apply in_map_iff in Hs. destruct Hs as (f & <- & Hf).
      apply (H f). apply candidates_In. auto.
    - intros H f Hf. apply candidates_In in Hf. destruct Hf as [_ Hm].
      exact (H _ Hm). }
  assert (Hnone : Reconciler.missing_in_results listing processed = [] ->
                  Reconciler.copied_to_unprocessed listing processed copy2 = []
                  /\ Reconciler.copy_outcome listing processed copy2 = Ok tt).
  { intros Hm. apply Hiff in Hm.
    assert (Hok : forall f,
               In f (Reconciler.copy_candidates listing processed) ->
               copy2 f = Ok tt) by (rewrite Hm; intros f []).
    destruct (copied_all _ _ _ Hok) as [Hc Ho].
    split; [now rewrite Hc|exact Ho]. }
  split; [exact Hnone|]. split.
  - intros Hok. destruct (copied_all _ _ _ Hok) as [Hc _].
    rewrite Hc. exact Hiff.
  - intros Hall.
    assert (Hm : Reconciler.missing_in_results listing processed = []).
    { apply nil_iff_no_element. intros x Hx. apply missing_In in Hx.
      destruct Hx as [Hs Hn]. apply Hn.
      unfold Reconciler.input_files_no_ext in Hs.
      apply in_map_iff in Hs. destruct Hs as (f & <- & Hf).
      unfold Reconciler.processed_files_no_ext. apply in_map, Hall, Hf. }
    split; [exact Hm|]. exact (Hnone Hm).
Qed.

Lemma copies_follow_missing_witness :
  (forall f, In f (Reconciler.input_files ["sub.docx"; "A.docx"; "notes.txt"])
             -> In f ["A.docx"; "sub.docx"; "D.docx"])
  /\ Reconciler.missing_in_results ["sub.docx"; "A.docx"; "notes.txt"]
                                   ["A.docx"; "sub.docx"; "D.docx"]
     = []
  /\ Reconciler.copied_to_unprocessed ["sub.docx"; "A.docx"; "notes.txt"]
                                      ["A.docx"; "sub.docx"; "D.docx"]
                                      (copy2_with_dirs ["sub.docx"])
     = []
  /\ Reconciler.copy_outcome ["sub.docx"; "A.docx"; "notes.txt"]
                             ["A.docx"; "sub.docx"; "D.docx"]
                             (copy2_with_dirs ["sub.docx"])
     = Ok tt.
Proof.
  assert (H : forall f,
             In f (Reconciler.input_files ["sub.docx"; "A.docx"; "notes.txt"])
             -> In f ["A.docx"; "sub.docx"; "D.docx"]).
  { intros f [<-|[<-|[]]]; [right; left; reflexivity|left; reflexivity]. }
  split; [exact H|].
  exact (proj2 (proj2 (copies_follow_missing
                         ["sub.docx"; "A.docx"; "notes.txt"]
                         ["A.docx"; "sub.docx"; "D.docx"]
                         (copy2_with_dirs ["sub.docx"]))) H).
Defined.

(** ** Names and extensions *)

Lemma substring_prefix (a b : string) :
  substring 0 (String.length a) (a ++ b) = a.
Proof. induction a as [|c a IH]; simpl; [|now rewrite IH]. now destruct b. Qed.

Lemma substring_suffix (a b : string) :
  substring (String.length a) (String.length b) (a ++ b) = b.
Proof. induction a as [|c a IH]; simpl; [apply substring_all|exact IH]. Qed.

Lemma lower_append (a b : string) :
  Py.lower (a ++ b) = Py.lower a ++ Py.lower b.
Proof. induction a as [|c a IH]; simpl; [reflexivity|now rewrite IH]. Qed.

Lemma length_lower (s : string) : String.length (Py.lower s) = String.length s.
Proof. induction s as [|c s IH]; simpl; [reflexivity|now rewrite IH]. Qed.

Lemma substring_lower (s : string) :
  forall n m, substring n m (Py.lower s) = Py.lower (substring n m s).
Proof.
  induction s as [|c s IH]; intros [|n] [|m]; simpl; try reflexivity.
  - now rewrite IH.
  - apply IH.
  - apply IH.
Qed.

Lemma endswith_append (pre p : string) : Py.endswith p (pre ++ p) = true.
Proof.
  unfold Py.endswith. rewrite length_append.
  replace (String.length pre + String.length p - String.length p)
    with (String.length pre) by lia.
  rewrite substring_suffix, String.eqb_refl, andb_true_r.
  apply Nat.leb_le. lia.
Qed.

Lemma endswith_split (p s : string) :
  Py.endswith p s = true -> exists pre, s = pre ++ p.
Proof.
  unfold Py.endswith. intros H. apply andb_true_iff in H.
  destruct H as [Hlen Heq]. apply Nat.leb_le in Hlen.
  apply String.eqb_eq in Heq.
  exists (substring 0 (String.length s - String.length p) s).
  pose proof (substring_cut s (String.length s - String.length p)) as Hc.
  replace (String.length s - (String.length s - String.length p))
    with (String.length p) in Hc by lia.
  rewrite Heq in Hc. symmetry. exact Hc.
Qed.

Lemma is_docx_append (pre ext : string) :
  Py.lower ext = ".docx" -> is_docx (pre ++ ext) = true.
Proof.
  intros He. unfold is_docx. rewrite lower_append, He. apply endswith_append.
Qed.

(** X13: the extractor takes a name as a document exactly when the name
    ends in a text that is .docx once put in lower case, whatever the
    case of its letters and whatever stands in front of it. *)
Theorem is_docx_any_case (fname : string) :
  is_docx fname = true
  <-> exists pre ext, fname = pre ++ ext /\ Py.lower ext = ".docx".
Proof.
  split.
  - unfold is_docx. intros H.
    destruct (endswith_split _ _ H) as (pre' & E).
    set (n := String.length fname - String.length ".docx").
    exists (substring 0 n fname), (substring n (String.length ".docx") fname).
    assert (Hlen : String.length ".docx" <= String.length fname).
    { rewrite <- (length_lower fname), E, length_append. lia. }
    split.
    + replace (String.length ".docx") with (String.length fname - n)
        by (unfold n; lia).
      symmetry. apply substring_cut.
    + rewrite <- substring_lower, E.
      replace n with (String.length pre').
      * apply substring_suffix.
      * unfold n. rewrite <- (length_lower fname), E, length_append. lia.
  - intros (pre & ext & -> & He). apply is_docx_append. exact He.
Qed.

(** X12: the reconciler looks for the extension as written, in lower
    case, the extractor in any case.  Every input document of the
    reconciler is a document for the extractor, but a name that does not
    end in .docx as written is no input of the reconciler and is never
    copied; if it is in the results column, its stem is reported as extra
    unless an input document has the same stem. *)
Theorem other_case_extension_is_extra
        (listing processed : list string) (copy2 : string -> result unit)
        (f : string) :
  (forall g, In g (Reconciler.input_files listing) -> is_docx g = true)
  /\ (Py.endswith ".docx" f = false ->
      ~ In f (Reconciler.input_files listing)
      /\ (~ In f (Reconciler.copy_candidates listing processed)
          /\ ~ In f (Reconciler.copied_to_unprocessed listing processed copy2))
      /\ (In f processed ->
          ~ In (Reconciler.stem f) (Reconciler.input_files_no_ext listing) ->
          In (Reconciler.stem f)
             (Reconciler.extra_in_results listing processed))).
Proof.
  split.
  - intros g Hg. unfold Reconciler.input_files in Hg.
    apply filter_In in Hg. destruct Hg as [_ Hg].
    destruct (endswith_split _ _ Hg) as (pre & ->).
    apply is_docx_append. reflexivity.
  - intros He.
    assert (Hn : ~ In f (Reconciler.input_files listing)).
    { unfold Reconciler.input_files. rewrite filter_In.
      intros [_ H]. congruence. }
    assert (Hc : ~ In f (Reconciler.copy_candidates listing processed)).
    { intros H. apply candidates_In in H. tauto. }
    split; [exact Hn|]. split.
    + split; [exact Hc|]. intros H. apply copied_In in H. tauto.
    + intros Hp Hs. apply extra_In. split; [|exact Hs].
      unfold Reconciler.processed_files_no_ext. apply in_map, Hp.
Qed.

Lemma other_case_extension_is_extra_witness :
  is_docx "B.DOCX" = true
  /\ Py.endswith ".docx" "B.DOCX" = false
  /\ ~ In "B.DOCX" (Reconciler.copied_to_unprocessed
                      ["a.docx"; "B.DOCX"] ["a.docx"] (copy2_with_dirs []))
  /\ Reconciler.comparison_output ["a.docx"; "B.DOCX"] ["a.docx"; "B.DOCX"]
     = Reconciler.mk_workbook [] ["B"].
Proof.
  split; [reflexivity|]. split; [reflexivity|].
  split; [|reflexivity].
  exact (proj2 (proj1 (proj2 (proj2 (other_case_extension_is_extra
                                       ["a.docx"; "B.DOCX"] ["a.docx"]
                                       (copy2_with_dirs []) "B.DOCX")
                                    eq_refl)))).
Defined.

Lemma rfind_from_none (c : ascii) (p : string) :
  forall i, Py.contains c p = false -> Reconciler.rfind_from c p i = (-1)%Z.
Proof.
  induction p as [|d r IH]; intros i H; [reflexivity|].
  simpl in H. apply orb_false_iff in H. destruct H as [Hd Hr].
  simpl. rewrite (IH _ Hr), Hd. reflexivity.
Qed.

Lemma rfind_from_bounds (c : ascii) (p : string) :
  forall i, (0 <= i)%Z ->
            Reconciler.rfind_from c p i = (-1)%Z
            \/ (i <= Reconciler.rfind_from c p i)%Z.
Proof.
  induction p as [|d r IH]; intros i Hi; [now left|].
  simpl. destruct (IH (i + 1)%Z ltac:(lia)) as [E|E].
  - rewrite E. simpl. destruct (d =? c)%char; [right; lia|now left].
  - destruct (0 <=? Reconciler.rfind_from c r (i + 1))%Z eqn:Hj.
    + right. lia.
    + apply Z.leb_gt in Hj. lia.
Qed.

Lemma rfind_from_append (c : ascii) (a b : string) :
  forall i,
    (0 <= i)%Z ->
    Reconciler.rfind_from c (a ++ b) i
    = (if (0 <=? Reconciler.rfind_from c b (i + Z.of_nat (String.length a)))%Z
       then Reconciler.rfind_from c b (i + Z.of_nat (String.length a))%Z
       else Reconciler.rfind_from c a i).
Proof.
  induction a as [|d a IH]; intros i Hi.
  - simpl. rewrite Z.add_0_r.
    destruct (rfind_from_bounds c b i Hi) as [E|E].
    + rewrite E. reflexivity.
    + destruct (0 <=? Reconciler.rfind_from c b i)%Z eqn:Hj; [reflexivity|].
      apply Z.leb_gt in Hj. lia.
  - cbn [append Reconciler.rfind_from String.length].
    rewrite (IH (i + 1)%Z ltac:(lia)).
    replace (i + 1 + Z.of_nat (String.length a))%Z
      with (i + Z.of_nat (S (String.length a)))%Z by lia.
    destruct (0 <=? Reconciler.rfind_from c b
                      (i + Z.of_nat (S (String.length a))))%Z eqn:Hj.
    + rewrite Hj. reflexivity.
    + reflexivity.
Qed.

(** X14: [splitext] cuts a name in two parts that make it up again.  For a
    plain name, one without a path separator, that ends in a dot and an
    extension without a dot: the parts are the text in front of that dot
    and the extension, unless that text consists of dots only (or is
    empty), in which case the whole name is the root and the extension is
    empty. *)
Theorem splitext_of_plain_name (pre ext : string) :
  Py.contains (ascii_of_N 92) (pre ++ String Reconciler.dot ext) = false ->
  Py.contains (ascii_of_N 47) (pre ++ String Reconciler.dot ext) = false ->
  Py.contains Reconciler.dot ext = false ->
  Reconciler.splitext (pre ++ String Reconciler.dot ext)
  = (if Reconciler.some_not_dot pre
     then (pre, String Reconciler.dot ext)
     else (pre ++ String Reconciler.dot ext, EmptyString))
  /\ fst (Reconciler.splitext (pre ++ String Reconciler.dot ext))
     ++ snd (Reconciler.splitext (pre ++ String Reconciler.dot ext))
     = pre ++ String Reconciler.dot ext.
Proof.
  intros Hb Hs Hd. split; [|apply splitext_parts].
  unfold Reconciler.splitext, Reconciler.rfind.
  rewrite (rfind_from_none _ _ 0%Z Hb), (rfind_from_none _ _ 0%Z Hs).
  rewrite rfind_from_append by lia.
  assert (Hdot : Reconciler.rfind_from Reconciler.dot
                   (String Reconciler.dot ext)
                   (0 + Z.of_nat (String.length pre))%Z
                 = Z.of_nat (String.length pre)).
  { cbn [Reconciler.rfind_from].
    rewrite (rfind_from_none _ _ _ Hd), Ascii.eqb_refl. simpl. lia. }
  rewrite Hdot.
  replace (0 <=? Z.of_nat (String.length pre))%Z with true
    by (symmetry; apply Z.leb_le; lia).
  replace (Z.max (-1) (-1) <? Z.of_nat (String.length pre))%Z with true
    by (symmetry; apply Z.ltb_lt; lia).
  unfold Reconciler.slice, Reconciler.slice_from.
  replace (Z.max (-1) (-1) + 1)%Z with 0%Z by lia.
  rewrite Z.sub_0_r, Nat2Z.id. cbn [Z.to_nat].
  rewrite substring_prefix, andb_true_l.
  destruct (Reconciler.some_not_dot pre); [|reflexivity].
  f_equal. rewrite length_append.
  replace (String.length pre + String.length (String Reconciler.dot ext)
           - String.length pre)
    with (String.length (String Reconciler.dot ext)) by lia.
  apply substring_suffix.
Qed.

Lemma splitext_of_plain_name_witness :
  Py.contains (ascii_of_N 92) ("report.v2" ++ String Reconciler.dot "docx")
  = false
  /\ Py.contains (ascii_of_N 47) ("report.v2" ++ String Reconciler.dot "docx")
     = false
  /\ Py.contains Reconciler.dot "docx" = false
  /\ Reconciler.splitext "report.v2.docx" = ("report.v2", ".docx").
Proof.
  repeat (split; [reflexivity|]).
  exact (proj1 (splitext_of_plain_name "report.v2" "docx"
                  eq_refl eq_refl eq_refl)).
Defined.

(** ** The start of the program *)

(** X15: whatever the set-up of the logging raises, such as the
    construction of the log file handler when the directory of the log
    file is missing, leaves the program before any check.  After it, a
    missing or empty API key, a missing input folder, or a model client
    that cannot be constructed raise in front of the guarded block.  In
    each case the handler does not run, nothing is opened or written, and
    the results file is as it was.  Otherwise the program is the guarded
    script. *)
Theorem startup_failure_escapes_handler
        (s : startup)
        (llm : string -> result string) (json_loads : string -> result value)
        (Document : string -> result (list string))
        (input_folder : list node) (w : world) :
  (forall e,
      RotatingFileHandler s = Raise e ->
      program s llm json_loads Document input_folder w = (Raise e, w))
  /\ (RotatingFileHandler s = Ok tt -> no_api_key s = true ->
      program s llm json_loads Document input_folder w
      = (Raise (OtherError "ValueError"), w))
  /\ (RotatingFileHandler s = Ok tt ->
      no_api_key s = false -> docs_folder_exists s = false ->
      program s llm json_loads Document input_folder w
      = (Raise (OtherError "FileNotFoundError"), w))
  /\ (forall e,
         RotatingFileHandler s = Ok tt ->
         no_api_key s = false -> docs_folder_exists s = true ->
         ChatGroq s = Raise e ->
         program s llm json_loads Document input_folder w = (Raise e, w))
  /\ (forall u,
         RotatingFileHandler s = Ok tt ->
         no_api_key s = false -> docs_folder_exists s = true ->
         ChatGroq s = Ok u ->
         program s llm json_loads Document input_folder w
         = script_main llm json_loads Document input_folder w).
Proof.
  unfold program, module_init, bind, try_except, lift, raise.
  repeat split.
  - intros e ->. reflexivity.
  - intros -> ->. reflexivity.
  - intros -> -> ->. reflexivity.
  - intros e -> -> -> ->. reflexivity.
  - intros u -> -> -> ->. reflexivity.
Qed.

Lemma startup_failure_escapes_handler_witness :
  program (mk_startup (Raise (OtherError "FileNotFoundError")) None true (Ok tt))
          demo_llm JSON.loads demo_document demo_folder faulty_world
  = (Raise (OtherError "FileNotFoundError"), faulty_world)
  /\ no_api_key (mk_startup (Ok tt) (Some EmptyString) true (Ok tt)) = true
  /\ program (mk_startup (Ok tt) (Some EmptyString) true (Ok tt))
             demo_llm JSON.loads demo_document demo_folder faulty_world
     = (Raise (OtherError "ValueError"), faulty_world).
Proof.
  split.
  - exact (proj1 (startup_failure_escapes_handler
                    (mk_startup (Raise (OtherError "FileNotFoundError"))
                                None true (Ok tt))
                    demo_llm JSON.loads demo_document demo_folder faulty_world)
                 _ eq_refl).
  - split; [reflexivity|].
    exact (proj1 (proj2 (startup_failure_escapes_handler
                           (mk_startup (Ok tt) (Some EmptyString) true (Ok tt))
                           demo_llm JSON.loads demo_document demo_folder
                           faulty_world))
                 eq_refl eq_refl).
Defined.

(** ** Roadway words in a cleaned location *)

Lemma in_all_chars (c : ascii) : In c all_chars.
Proof.
  unfold all_chars. rewrite <- (ascii_nat_embedding c).
  apply in_map, in_seq. pose proof (nat_ascii_bounded c). lia.
Qed.

Lemma space_not_word (c : ascii) : Py.isspace c = true -> Py.is_word c = false.
Proof.
  assert (H : forallb (fun c => implb (Py.isspace c) (negb (Py.is_word c)))
                      all_chars = true) by (vm_compute; reflexivity).
  rewrite forallb_forall in H. specialize (H c (in_all_chars c)).
  intros Hs. rewrite Hs in H. simpl in H. now apply negb_true_iff.
Qed.

Lemma keywords_are_words : forallb word_literal roadway_keywords = true.
Proof. vm_compute. reflexivity. Qed.

Lemma keywords_not_empty :
  forallb (fun kw => negb (Py.falsy kw)) roadway_keywords = true.
Proof. reflexivity. Qed.

(** A literal of letters consumes word characters only. *)
Lemma match_literal_word (lit : string) :
  word_literal lit = true -> Py.falsy lit = false ->
  forall pw s w r,
    match_literal lit pw s = Some (w, r) ->
    w = true /\ starts_word s = true.
Proof.
  induction lit as [|p lit IH]; intros Hl Hne pw s w r H; [discriminate|].
  cbn [word_literal] in Hl. apply andb_true_iff in Hl. destruct Hl as [Hp Hl].
  destruct s as [|c s]; [discriminate|].
  cbn [match_literal] in H.
  destruct (Py.lower_char c =? Py.lower_char p)%char eqn:E; [|discriminate].
  rewrite forallb_forall in Hp. specialize (Hp c (in_all_chars c)).
  rewrite E in Hp. simpl in Hp.
  split; [|exact Hp].
  destruct lit as [|q lit].
  - inversion H; subst. exact Hp.
  - apply (IH Hl eq_refl _ _ _ _ H).
Qed.

Lemma match_literal_append (lit : string) :
  forall pw x y w rest,
    match_literal lit pw x = Some (w, rest) ->
    match_literal lit pw (x ++ y) = Some (w, rest ++ y).
Proof.
  induction lit as [|p lit IH]; intros pw x y w rest H.
  - inversion H; subst. reflexivity.
  - destruct x as [|c x]; [discriminate|].
    cbn [match_literal append] in *.
    destruct (Py.lower_char c =? Py.lower_char p)%char; [|discriminate].
    apply IH. exact H.
Qed.

Lemma match_literal_all (lit : string) :
  forall pw x w,
    match_literal lit pw x = Some (w, EmptyString) ->
    Py.falsy lit = false ->
    w = last_state pw x.
Proof.
  induction lit as [|p lit IH]; intros pw x w H Hne; [discriminate|].
  destruct x as [|c x]; [discriminate|].
  cbn [match_literal last_state] in *.
  destruct (Py.lower_char c =? Py.lower_char p)%char; [|discriminate].
  destruct lit as [|q lit].
  - inversion H; subst. reflexivity.
  - apply (IH _ _ _ H eq_refl).
Qed.

(** A match starts behind a character that is not a word character, at
    one that is. *)
Lemma match_here_states (pw : bool) (s : string) :
  match_here pw s = true -> pw = false /\ starts_word s = true.
Proof.
  unfold match_here, match_keyword. intros H.
  apply andb_true_iff in H. destruct H as [Hb Hk].
  apply existsb_exists in Hk. destruct Hk as (kw & Hin & Hm).
  destruct (match_literal kw pw s) as [[w r]|] eqn:E; [|discriminate].
  pose proof keywords_are_words as Hw. pose proof keywords_not_empty as Hn.
  rewrite forallb_forall in Hw, Hn.
  specialize (Hw kw Hin). specialize (Hn kw Hin). apply negb_true_iff in Hn.
  destruct (match_literal_word kw Hw Hn _ _ _ _ E) as [_ Hs].
  split; [|exact Hs].
  unfold word_boundary in Hb. fold (starts_word s) in Hb.
  rewrite Hs in Hb. destruct pw; [discriminate|reflexivity].
Qed.

(** Text put behind a match keeps it, when it does not start with a word
    character or, if the match ends where the text starts, when the text
    starts a match of its own. *)
Lemma match_here_append (pw : bool) (x y : string) :
  match_here pw x = true ->
  starts_word y = false
  \/ match_here (last_state pw x) y = true ->
  match_here pw (x ++ y) = true.
Proof.
  unfold match_here at 1 3. intros H Hy.
  apply andb_true_iff in H. destruct H as [Hb Hk].
  apply andb_true_iff. split.
  - destruct x; [discriminate|exact Hb].
  - unfold match_keyword in *. apply existsb_exists in Hk.
    destruct Hk as (kw & Hin & Hm). apply existsb_exists.
    exists kw. split; [exact Hin|].
    destruct (match_literal kw pw x) as [[w rest]|] eqn:E; [|discriminate].
    rewrite (match_literal_append _ _ _ y _ _ E).
    destruct rest as [|c rest]; [|exact Hm].
    cbn [append]. unfold word_boundary in *. fold (starts_word y).
    pose proof keywords_are_words as Hw. pose proof keywords_not_empty as Hn.
    rewrite forallb_forall in Hw, Hn.
    specialize (Hw kw Hin). specialize (Hn kw Hin). apply negb_true_iff in Hn.
    destruct (match_literal_word kw Hw Hn _ _ _ _ E) as [Hwt _].
    destruct Hy as [Hy|Hy].
    + rewrite Hy. exact Hm.
    + rewrite <- (match_literal_all _ _ _ _ E Hn) in Hy.
      apply match_here_states in Hy. destruct Hy as [Hy _]. congruence.
Qed.

(** Where [cut_at_roadway] cuts: at the end of the text or at a match. *)
Lemma cut_at_roadway_point (s : string) :
  forall pw,
    exists y,
      s = cut_at_roadway pw s ++ y
      /\ (y = EmptyString
          \/ match_here (last_state pw (cut_at_roadway pw s)) y = true).
Proof.
  induction s as [|c r IH]; intros pw.
  - exists EmptyString. auto.
  - cbn [cut_at_roadway]. destruct (match_here pw (String c r)) eqn:E.
    + exists (String c r). split; [reflexivity|]. right. exact E.
    + destruct (IH (Py.is_word c)) as (y & Hy & Hm).
      exists y. cbn [append last_state]. split; [congruence|exact Hm].
Qed.

Lemma has_match_cut (s : string) :
  forall pw, has_match pw (cut_at_roadway pw s) = false.
Proof.
  induction s as [|c r IH]; intros pw; [reflexivity|].
  cbn [cut_at_roadway]. destruct (match_here pw (String c r)) eqn:E;
    [reflexivity|].
  cbn [has_match]. rewrite IH, orb_false_r.
  destruct (match_here pw (String c (cut_at_roadway (Py.is_word c) r)))
    eqn:Hm; [|reflexivity].
  destruct (cut_at_roadway_point r (Py.is_word c)) as (y & Hy & Hp).
  assert (Hfull : match_here pw (String c (cut_at_roadway (Py.is_word c) r)
                                 ++ y) = true).
  { apply match_here_append; [exact Hm|].
    destruct Hp as [->|Hp]; [left; reflexivity|right; exact Hp]. }
  cbn [append] in Hfull. rewrite <- Hy in Hfull. congruence.
Qed.

Lemma first_line_append (x z : string) :
  Py.contains Py.newline x = false ->
  first_line (x ++ String Py.newline z) = x.
Proof.
  induction x as [|c x IH]; intros H; [reflexivity|].
  simpl in H. apply orb_false_iff in H. destruct H as [Hc Hx].
  cbn [append first_line]. rewrite Hc, (IH Hx). reflexivity.
Qed.

Lemma has_match_append_newline (x z : string) :
  Py.contains Py.newline x = false ->
  forall pw,
    has_match pw (x ++ String Py.newline z)
    = has_match pw x || has_match false z.
Proof.
  induction x as [|c x IH]; intros H pw.
  - cbn [append has_match]. rewrite match_here_newline. reflexivity.
  - pose proof H as H'. simpl in H'. apply orb_false_iff in H'.
    destruct H' as [_ Hx].
    cbn [append has_match]. rewrite (IH Hx), orb_assoc. f_equal. f_equal.
    rewrite <- (match_here_first_line pw (String c (x ++ String Py.newline z))).
    change (String c (x ++ String Py.newline z))
      with (String c x ++ String Py.newline z).
    rewrite (first_line_append _ _ H). reflexivity.
Qed.

Lemma cut_at_roadway_contains (d : ascii) (s : string) :
  forall pw,
    Py.contains d (cut_at_roadway pw s) = true -> Py.contains d s = true.
Proof.
  induction s as [|c r IH]; intros pw; simpl; [auto|].
  destruct (match_here pw (String c r)); [discriminate|].
  simpl. intros H. apply orb_true_iff in H. destruct H as [H|H].
  - rewrite H. reflexivity.
  - rewrite (IH _ H). apply orb_true_r.
Qed.

Lemma split_fields_free (sep : ascii) (s : string) :
  Forall (fun l => Py.contains sep l = false) (Py.split sep s).
Proof.
  induction s as [|c r IH]; [repeat constructor|].
  rewrite split_cons. destruct (c =? sep)%char eqn:Hc.
  - constructor; [reflexivity|exact IH].
  - destruct (Py.split sep r) as [|w ws].
    + constructor; [|constructor]. simpl. rewrite Hc. reflexivity.
    + inversion IH; subst. constructor; [|assumption].
      simpl. rewrite Hc. assumption.
Qed.

Lemma has_match_join (ls : list string) :
  Forall (fun l => Py.contains Py.newline l = false
                   /\ forall pw, has_match pw l = false) ls ->
  forall pw, has_match pw (Py.join lf ls) = false.
Proof.
  induction ls as [|x ls IH]; intros H pw; [reflexivity|].
  inversion H as [|? ? [Hx Hm] Hrest]; subst.
  destruct ls as [|y ls]; [apply Hm|].
  change (Py.join lf (x :: y :: ls))
    with (x ++ String Py.newline (Py.join lf (y :: ls))).
  rewrite (has_match_append_newline _ _ Hx), Hm.
  apply (IH Hrest).
Qed.

Lemma has_match_re_sub (s : string) :
  has_match false (re_sub_roadway s) = false.
Proof.
  rewrite re_sub_roadway_lines. apply has_match_join.
  apply Forall_map. pose proof (split_fields_free Py.newline s) as H.
  induction H as [|l ls Hl _ IH]; constructor; [|exact IH].
  split.
  - destruct (Py.contains Py.newline (cut_at_roadway false l)) eqn:E;
      [|reflexivity].
    apply cut_at_roadway_contains in E. congruence.
  - intros pw. destruct pw; [|apply has_match_cut].
    (* behind a word character *)
    destruct l as [|c r]; [reflexivity|].
    cbn [cut_at_roadway]. destruct (match_here false (String c r)) eqn:Em;
      [reflexivity|].
    cbn [has_match]. rewrite has_match_cut, orb_false_r.
    destruct (match_here true (String c _)) eqn:E; [|reflexivity].
    apply match_here_states in E. destruct E. discriminate.
Qed.

Lemma re_sub_without_match (s : string) :
  forall pw, has_match pw s = false -> re_sub_from pw false s = s.
Proof.
  induction s as [|c r IH]; intros pw H; [reflexivity|].
  cbn [has_match] in H. apply orb_false_iff in H. destruct H as [Hm Hr].
  cbn [re_sub_from andb]. rewrite Hm, (IH _ Hr). reflexivity.
Qed.

Lemma has_match_lstrip (s : string) :
  has_match false s = false -> has_match false (Py.lstrip s) = false.
Proof.
  induction s as [|c r IH]; intros H; [reflexivity|].
  cbn [Py.lstrip]. destruct (Py.isspace c) eqn:Hc; [|exact H].
  apply IH. cbn [has_match] in H. apply orb_false_iff in H.
  rewrite (space_not_word _ Hc) in H. tauto.
Qed.

Lemma rstrip_cases (c : ascii) (r : string) :
  (Py.rstrip (String c r) = EmptyString /\ Py.isspace c = true)
  \/ Py.rstrip (String c r) = String c (Py.rstrip r).
Proof.
  simpl. destruct (Py.rstrip r); [|now right].
  destruct (Py.isspace c); [left; auto|now right].
Qed.

Lemma rstrip_point (s : string) :
  exists y, s = Py.rstrip s ++ y /\ starts_word y = false.
Proof.
  induction s as [|c r IH]; [exists EmptyString; auto|].
  destruct (rstrip_cases c r) as [[E Hc]|E]; rewrite E.
  - exists (String c r). split; [reflexivity|].
    apply space_not_word. exact Hc.
  - destruct IH as (y & Hy & Hw). exists y. cbn [append].
    split; [congruence|exact Hw].
Qed.

Lemma has_match_rstrip (s : string) :
  forall pw, has_match pw (Py.rstrip s) = true -> has_match pw s = true.
Proof.
  induction s as [|c r IH]; intros pw H; [discriminate|].
  destruct (rstrip_cases c r) as [[E _]|E]; rewrite E in H; [discriminate|].
  cbn [has_match] in *. apply orb_true_iff in H. apply orb_true_iff.
  destruct H as [H|H]; [left|right; apply IH; exact H].
  destruct (rstrip_point r) as (y & Hy & Hw).
  pose proof (match_here_append pw (String c (Py.rstrip r)) y H (or_introl Hw))
    as Hm.
  cbn [append] in Hm. rewrite <- Hy in Hm. exact Hm.
Qed.

Lemma has_match_strip (s : string) :
  has_match false s = false -> has_match false (Py.strip s) = false.
Proof.
  intros H. unfold Py.strip.
  destruct (has_match false (Py.rstrip (Py.lstrip s))) eqn:E; [|reflexivity].
  apply has_match_rstrip in E. rewrite (has_match_lstrip _ H) in E.
  discriminate.
Qed.

(** X16: for a location without a comma, what [clean_location] returns
    holds no roadway word standing as a whole word any more, and cleaning
    it again changes nothing. *)
Theorem clean_location_settles (location : string) :
  Py.contains Py.comma location = false ->
  has_match false (clean_location location) = false
  /\ clean_location (clean_location location) = clean_location location.
Proof.
  intros Hc.
  assert (Hm : has_match false (clean_location location) = false).
  { unfold clean_location. destruct (Py.falsy location); [reflexivity|].
    rewrite Hc. apply has_match_strip, has_match_re_sub. }
  split; [exact Hm|].
  pose proof (clean_location_has_no_comma location) as Hn.
  pose proof (clean_location_is_trimmed location) as Ht.
  remember (clean_location location) as t eqn:Et. clear Et.
  unfold clean_location. destruct (Py.falsy t) eqn:Hf.
  - destruct t; [reflexivity|discriminate].
  - rewrite Hn. unfold re_sub_roadway.
    rewrite (re_sub_without_match _ _ Hm). exact Ht.
Qed.

Lemma clean_location_settles_witness :
  Py.contains Py.comma "MG Road Extension" = false
  /\ clean_location "MG Road Extension" = "MG"
  /\ clean_location (clean_location "MG Road Extension")
     = clean_location "MG Road Extension".
Proof.
  repeat (split; [reflexivity|]).
  exact (proj2 (clean_location_settles "MG Road Extension" eq_refl)).
Defined.

(** ** Calls of the model in a run *)

Lemma run_trace_opened
      (llm : string -> result string) (json_loads : string -> result value)
      (Document : string -> result (list string)) (jobs : list job) :
  forall rows,
    opened_paths (run_trace llm json_loads Document rows jobs)
    = map job_path jobs
    /\ invoked_texts (run_trace llm json_loads Document rows jobs)
       = filter (fun t => negb (Py.falsy t)) (map (job_text Document) jobs).
Proof.
  induction jobs as [|j jobs IH]; intros rows; [split; reflexivity|].
  destruct (IH (rows ++ [row_for llm json_loads Document j])%list) as [Ho Hi].
  cbn [run_trace map filter]. unfold opened_paths, invoked_texts in *.
  rewrite !flat_map_app. cbn [flat_map]. rewrite Ho, Hi.
  unfold events_for, job_path.
  destruct (Py.falsy (job_text Document j)); split; reflexivity.
Qed.

(** X17: in a run over documents that goes through, every document is
    opened once, in the order of the walk, and the model is called once
    for each document with a text and not at all for the others, with
    that text. *)
Theorem one_call_for_each_text
        (llm : string -> result string) (json_loads : string -> result value)
        (Document : string -> result (list string))
        (jobs : list job) (rows rows' : table) (w w' : world) :
  for_jobs llm json_loads Document jobs rows w = (Ok rows', w') ->
  opened_paths (trace w') = (opened_paths (trace w) ++ map job_path jobs)%list
  /\ invoked_texts (trace w')
     = (invoked_texts (trace w)
        ++ filter (fun t => negb (Py.falsy t))
                  (map (job_text Document) jobs))%list.
Proof.
  intros H. destruct (for_jobs_ok _ _ _ _ _ _ _ _ H) as (_ & Ht & _).
  rewrite Ht. unfold opened_paths, invoked_texts. rewrite !flat_map_app.
  destruct (run_trace_opened llm json_loads Document jobs rows) as [Ho Hi].
  unfold opened_paths, invoked_texts in *. rewrite Ho, Hi. split; reflexivity.
Qed.

Lemma one_call_for_each_text_witness :
  for_jobs demo_llm JSON.loads demo_document (demo_first ++ demo_rest)%list
           [] w0
  = (Ok [demo_row; sentinel_row "B.DOCX"],
     snd (for_jobs demo_llm JSON.loads demo_document
                   (demo_first ++ demo_rest)%list [] w0))
  /\ List.length
       (opened_paths
          (trace (snd (for_jobs demo_llm JSON.loads demo_document
                                (demo_first ++ demo_rest)%list [] w0)))) = 2
  /\ invoked_texts
       (trace (snd (for_jobs demo_llm JSON.loads demo_document
                             (demo_first ++ demo_rest)%list [] w0)))
     = (invoked_texts (trace w0)
        ++ filter (fun t => negb (Py.falsy t))
                  (map (job_text demo_document)
                       (demo_first ++ demo_rest)))%list.
Proof.
  assert (H : for_jobs demo_llm JSON.loads demo_document
                (demo_first ++ demo_rest)%list [] w0
              = (Ok [demo_row; sentinel_row "B.DOCX"],
                 snd (for_jobs demo_llm JSON.loads demo_document
                               (demo_first ++ demo_rest)%list [] w0)))
    by reflexivity.
  split; [exact H|]. split; [reflexivity|].
  exact (proj2 (one_call_for_each_text demo_llm JSON.loads demo_document
                  _ _ _ _ _ H)).
Defined.
